(** * QA automation tool: test synthesis, defect classification, ticket mapping

    A shallow embedding of the TypeScript sources

    - [src/lib/scraper.ts]        (the element model),
    - [src/lib/testGenerator.ts]  (test synthesis),
    - [src/lib/bugDetector.ts]    (defect classification),
    - the Jira integration library (ticket mapping and configuration
      validation), and
    - the [ReportingDashboard] component (the summary statistics),

    followed by the properties established about them.

    Conventions.  A JavaScript string is a [string]: the sequence of the bytes
    of its UTF-8 encoding.  Lower-casing, trimming and the replacement of white
    space in a file name are modelled on ASCII, which is exact for the keyword tests of the classifier: the keywords are
    ASCII, and lower-casing a character outside ASCII never completes an
    occurrence of one of them.  The class [\s] of the email pattern is
    modelled in full, with the white space outside ASCII.
    A [number] that is an array index or length is a [nat], a clock reading is
    a [Z] (milliseconds), any other [number] is a binary64 [float].  A string
    literal union ('high' | 'medium' | 'low', ...) is an inductive type with a
    [..Tag] function giving the run-time string; a field the sources may leave
    [undefined] is an [option].  The pauses the sources insert with
    [setTimeout] change no result and are not modelled. *)

From Stdlib Require Import ZArith Ascii Floats Uint63 DecimalString DecimalNat.
From stdpp Require Import gmap strings list.

(** ** The host language *)

Module Js.

(** The double quote character, and the line feed. *)
Definition dq : string := String (Ascii.ascii_of_nat 34) EmptyString.
Definition nl : string := String (Ascii.ascii_of_nat 10) EmptyString.

(** The lines of a template literal, joined by line feeds. *)
Definition unlines (lines : list string) : string := String.concat nl lines.

(** [`${n}`] for an array index, and for an integral number. *)
Definition decimal (n : nat) : string := NilZero.string_of_uint (Nat.to_uint n).
Definition decimalZ (z : Z) : string := NilZero.string_of_int (Z.to_int z).

(** Truthiness of a possibly undefined string: [undefined] and [''] are
    falsy. *)
Definition truthy (s : option string) : bool :=
  match s with
  | Some (String _ _) => true
  | _ => false
  end.

(** [s || d] for a possibly undefined string [s]. *)
Definition orElse (s : option string) (d : string) : string :=
  match s with
  | Some (String c r) => String c r
  | _ => d
  end.

(** [String.prototype.toLowerCase], on ASCII. *)
Definition toLowerChar (c : ascii) : ascii :=
  let n := Ascii.nat_of_ascii c in
  if (65 <=? n) && (n <=? 90) then Ascii.ascii_of_nat (n + 32) else c.

Fixpoint toLowerCase (s : string) : string :=
  match s with
  | EmptyString => EmptyString
  | String c r => String (toLowerChar c) (toLowerCase r)
  end.

(** [s.startsWith(p)]. *)
Fixpoint startsWith (s p : string) {struct p} : bool :=
  match p, s with
  | EmptyString, _ => true
  | String _ _, EmptyString => false
  | String x p', String y s' => Ascii.eqb x y && startsWith s' p'
  end.

(** [s.includes(p)]: [p] starts at some position of [s]. *)
Fixpoint includes (s p : string) : bool :=
  match s with
  | EmptyString => startsWith s p
  | String _ r => startsWith s p || includes r p
  end.

(** [s.substr(start, length)] for non-negative arguments. *)
Definition substr (s : string) (start len : nat) : string :=
  String.substring start len s.

(** White space and line terminators of ASCII, as [trim] is modelled. *)
Definition isWhiteSpace (c : ascii) : bool :=
  let n := Ascii.nat_of_ascii c in
  ((9 <=? n) && (n <=? 13)) || (n =? 32).

Fixpoint trimStart (s : string) : string :=
  match s with
  | EmptyString => EmptyString
  | String c r => if isWhiteSpace c then trimStart r else s
  end.

Fixpoint trimEnd (s : string) : string :=
  match s with
  | EmptyString => EmptyString
  | String c r =>
      match trimEnd r with
      | EmptyString => if isWhiteSpace c then EmptyString else String c EmptyString
      | r' => String c r'
      end
  end.

(** [s.trim()]. *)
Definition trim (s : string) : string := trimEnd (trimStart s).

(** [array.join(separator)]. *)
Definition join (separator : string) (items : list string) : string :=
  String.concat separator items.

(** The UTF-8 encoding of a character of the Basic Multilingual Plane. *)
Definition character (codePoint : N) : string :=
  let byte (n : N) := Ascii.ascii_of_N n in
  if (codePoint <? 128)%N then String (byte codePoint) EmptyString
  else if (codePoint <? 2048)%N
  then String (byte (192 + codePoint / 64)%N)
         (String (byte (128 + codePoint mod 64)%N) EmptyString)
  else String (byte (224 + codePoint / 4096)%N)
         (String (byte (128 + (codePoint / 64) mod 64)%N)
            (String (byte (128 + codePoint mod 64)%N) EmptyString)).

(** The characters the class [\s] of a regular expression matches: the white
    space and the line terminators of ECMAScript. *)
Definition whiteSpaceCodePoints : list N :=
  [ 0x9; 0xA; 0xB; 0xC; 0xD; 0x20; 0xA0; 0x1680;
    0x2000; 0x2001; 0x2002; 0x2003; 0x2004; 0x2005; 0x2006; 0x2007; 0x2008; 0x2009; 0x200A;
    0x2028; 0x2029; 0x202F; 0x205F; 0x3000; 0xFEFF ]%N.

Definition whiteSpace : list string := map character whiteSpaceCodePoints.

(** A white space character stands at the head of [s]. *)
Definition startsWithWhiteSpace (s : string) : bool := existsb (startsWith s) whiteSpace.

(** The value of [object[key]] for an object literal whose own properties
    hold strings: the own property of that name; else the member of
    [Object.prototype] of that name, which is a function, or the prototype
    itself for [__proto__]; else [undefined]. *)
Inductive Member : Type :=
  | OwnValue (text : string)
  | InheritedMember (key : string)
  | Undefined.

(** The property names of [Object.prototype] (ECMAScript, sections 20.1.3 and
    B.2.2), which every object literal inherits. *)
Definition objectPrototypeKeys : list string :=
  [ "constructor"; "hasOwnProperty"; "isPrototypeOf"; "propertyIsEnumerable";
    "toLocaleString"; "toString"; "valueOf"; "__proto__";
    "__defineGetter__"; "__defineSetter__"; "__lookupGetter__"; "__lookupSetter__" ].

Definition getProperty (object : gmap string string) (key : string) : Member :=
  match object !! key with
  | Some text => OwnValue text
  | None => if bool_decide (key ∈ objectPrototypeKeys) then InheritedMember key else Undefined
  end.

(** The outcome of awaiting the promise an [async] function returns. *)
Inductive Promise (A : Type) : Type :=
  | Resolved (value : A)
  | Rejected (message : string).
Arguments Resolved {A} value.
Arguments Rejected {A} message.

(** A [Date]: a time value in milliseconds since the epoch, or the invalid
    date. *)
Inductive Date : Type :=
  | TimeValue (ms : Z)
  | InvalidDate.

End Js.
Import Js.

(** ** src/lib/scraper.ts *)

Module Scraper.

Inductive ElementType : Type := button | input | link | form | select | textarea.

#[export] Instance ElementType_eq_dec : EqDecision ElementType.
Proof. solve_decision. Defined.

Record ScrapedElement : Type := {
  el_id : string;
  el_type : ElementType;
  el_selector : string;
  el_text : option string;
  el_attributes : gmap string string;
  el_xpath : string;
  el_position : float * float
}.

(** The elements the mock [scrapePage] returns. *)
Definition mockElements : list ScrapedElement :=
  [ {| el_id := "1";
       el_type := button;
       el_selector := "#login-btn";
       el_text := Some "Login";
       el_attributes := {[ "id" := "login-btn"; "class" := "btn btn-primary" ]};
       el_xpath := "//*[@id=" +:+ Js.dq +:+ "login-btn" +:+ Js.dq +:+ "]";
       el_position := (100%float, 200%float) |};
    {| el_id := "2";
       el_type := input;
       el_selector := "input[name=" +:+ Js.dq +:+ "email" +:+ Js.dq +:+ "]";
       el_text := None;
       el_attributes :=
         {[ "name" := "email"; "type" := "email"; "placeholder" := "Enter email" ]};
       el_xpath := "//input[@name=" +:+ Js.dq +:+ "email" +:+ Js.dq +:+ "]";
       el_position := (50%float, 150%float) |};
    {| el_id := "3";
       el_type := input;
       el_selector := "input[name=" +:+ Js.dq +:+ "password" +:+ Js.dq +:+ "]";
       el_text := None;
       el_attributes :=
         {[ "name" := "password"; "type" := "password"; "placeholder" := "Enter password" ]};
       el_xpath := "//input[@name=" +:+ Js.dq +:+ "password" +:+ Js.dq +:+ "]";
       el_position := (50%float, 180%float) |};
    {| el_id := "4";
       el_type := link;
       el_selector := "a[href=" +:+ Js.dq +:+ "/signup" +:+ Js.dq +:+ "]";
       el_text := Some "Sign Up";
       el_attributes := {[ "href" := "/signup"; "class" := "link" ]};
       el_xpath := "//a[@href=" +:+ Js.dq +:+ "/signup" +:+ Js.dq +:+ "]";
       el_position := (200%float, 220%float) |};
    {| el_id := "5";
       el_type := form;
       el_selector := "#contact-form";
       el_text := None;
       el_attributes := {[ "id" := "contact-form"; "method" := "POST" ]};
       el_xpath := "//*[@id=" +:+ Js.dq +:+ "contact-form" +:+ Js.dq +:+ "]";
       el_position := (0%float, 100%float) |} ].

End Scraper.
Import Scraper.

(** ** src/lib/testGenerator.ts *)

Module TestGenerator.

Inductive Priority : Type := high | medium | low.
Inductive Category : Type := functional | ui | integration.

#[export] Instance Priority_eq_dec : EqDecision Priority.
Proof. solve_decision. Defined.
#[export] Instance Category_eq_dec : EqDecision Category.
Proof. solve_decision. Defined.

Definition priorityTag (p : Priority) : string :=
  match p with high => "high" | medium => "medium" | low => "low" end.

Definition categoryTag (c : Category) : string :=
  match c with
  | functional => "functional"
  | ui => "ui"
  | integration => "integration"
  end.

(** A [TestFramework] is 'playwright' | 'selenium' | 'cypress' to the type
    checker and a string when the code runs. *)
Definition isTestFramework (framework : string) : Prop :=
  framework = "playwright" \/ framework = "selenium" \/ framework = "cypress".

(** [tc_code] is the value of [codeMap[framework]]: the template text for one
    of the three frameworks. *)
Record TestCase : Type := {
  tc_id : string;
  tc_name : string;
  tc_description : string;
  tc_framework : string;
  tc_code : Member;
  tc_elements : list string;
  tc_priority : Priority;
  tc_category : Category
}.

Record GenerateTestsConfig : Type := {
  cfg_elements : list ScrapedElement;
  cfg_framework : string;
  cfg_baseUrl : string;
  cfg_includeValidation : bool;
  cfg_includeNegativeTests : bool
}.

(** *** The code templates *)

Definition generateButtonTest_playwrightCode (element : ScrapedElement) (baseUrl selector : string) : string :=
  unlines
    [ "";
      "import { test, expect } from '@playwright/test';";
      "";
      "test('Button click test - " +:+ orElse (el_text element) "Button" +:+ "', async ({ page }) => {";
      "  await page.goto('" +:+ baseUrl +:+ "');";
      "  await page.click('" +:+ selector +:+ "');";
      "  // Add assertions here";
      "  await expect(page).toHaveURL(/.*success.*/);";
      "});" ].

Definition generateButtonTest_seleniumCode (baseUrl selector : string) : string :=
  unlines
    [ "";
      "from selenium import webdriver";
      "from selenium.webdriver.common.by import By";
      "from selenium.webdriver.support.ui import WebDriverWait";
      "from selenium.webdriver.support import expected_conditions as EC";
      "";
      "def test_button_click():";
      "    driver = webdriver.Chrome()";
      "    try:";
      "        driver.get('" +:+ baseUrl +:+ "')";
      "        button = WebDriverWait(driver, 10).until(";
      "            EC.element_to_be_clickable((By.CSS_SELECTOR, '" +:+ selector +:+ "'))";
      "        )";
      "        button.click()";
      "        # Add assertions here";
      "        assert 'success' in driver.current_url";
      "    finally:";
      "        driver.quit()" ].

Definition generateButtonTest_cypressCode (element : ScrapedElement) (baseUrl selector : string) : string :=
  unlines
    [ "";
      "describe('Button Tests', () => {";
      "  it('should click " +:+ orElse (el_text element) "button" +:+ " successfully', () => {";
      "    cy.visit('" +:+ baseUrl +:+ "');";
      "    cy.get('" +:+ selector +:+ "').click();";
      "    // Add assertions here";
      "    cy.url().should('include', 'success');";
      "  });";
      "});" ].

Definition generateInputTest_playwrightCode (element : ScrapedElement) (baseUrl selector : string) : string :=
  unlines
    [ "";
      "import { test, expect } from '@playwright/test';";
      "";
      "test('Input field test - " +:+ orElse (el_attributes element !! "name") "Input" +:+ "', async ({ page }) => {";
      "  await page.goto('" +:+ baseUrl +:+ "');";
      "  await page.fill('" +:+ selector +:+ "', 'test-value');";
      "  const value = await page.inputValue('" +:+ selector +:+ "');";
      "  expect(value).toBe('test-value');";
      "});" ].

Definition generateInputTest_seleniumCode (baseUrl selector : string) : string :=
  unlines
    [ "";
      "from selenium import webdriver";
      "from selenium.webdriver.common.by import By";
      "";
      "def test_input_field():";
      "    driver = webdriver.Chrome()";
      "    try:";
      "        driver.get('" +:+ baseUrl +:+ "')";
      "        input_field = driver.find_element(By.CSS_SELECTOR, '" +:+ selector +:+ "')";
      "        input_field.send_keys('test-value')";
      "        assert input_field.get_attribute('value') == 'test-value'";
      "    finally:";
      "        driver.quit()" ].

Definition generateInputTest_cypressCode (element : ScrapedElement) (baseUrl selector : string) : string :=
  unlines
    [ "";
      "describe('Input Tests', () => {";
      "  it('should fill " +:+ orElse (el_attributes element !! "name") "input" +:+ " field', () => {";
      "    cy.visit('" +:+ baseUrl +:+ "');";
      "    cy.get('" +:+ selector +:+ "').type('test-value');";
      "    cy.get('" +:+ selector +:+ "').should('have.value', 'test-value');";
      "  });";
      "});" ].

Definition generateNegativeInputTest_playwrightCode (element : ScrapedElement) (baseUrl selector : string) : string :=
  unlines
    [ "";
      "import { test, expect } from '@playwright/test';";
      "";
      "test('Negative input test - " +:+ orElse (el_attributes element !! "name") "Input" +:+ "', async ({ page }) => {";
      "  await page.goto('" +:+ baseUrl +:+ "');";
      "  await page.fill('" +:+ selector +:+ "', '');";
      "  // Try to submit form or trigger validation";
      "  await page.click('button[type=" +:+ dq +:+ "submit" +:+ dq +:+ "]');";
      "  // Check for validation message";
      "  const errorMessage = page.locator('.error, .invalid-feedback');";
      "  await expect(errorMessage).toBeVisible();";
      "});" ].

Definition generateNegativeInputTest_seleniumCode (baseUrl selector : string) : string :=
  unlines
    [ "";
      "from selenium import webdriver";
      "from selenium.webdriver.common.by import By";
      "";
      "def test_negative_input():";
      "    driver = webdriver.Chrome()";
      "    try:";
      "        driver.get('" +:+ baseUrl +:+ "')";
      "        input_field = driver.find_element(By.CSS_SELECTOR, '" +:+ selector +:+ "')";
      "        input_field.clear()";
      "        submit_btn = driver.find_element(By.CSS_SELECTOR, 'button[type=" +:+ dq +:+ "submit" +:+ dq +:+ "]')";
      "        submit_btn.click()";
      "        error_msg = driver.find_element(By.CSS_SELECTOR, '.error, .invalid-feedback')";
      "        assert error_msg.is_displayed()";
      "    finally:";
      "        driver.quit()" ].

Definition generateNegativeInputTest_cypressCode (element : ScrapedElement) (baseUrl selector : string) : string :=
  unlines
    [ "";
      "describe('Negative Input Tests', () => {";
      "  it('should show validation error for empty " +:+ orElse (el_attributes element !! "name") "input" +:+ "', () => {";
      "    cy.visit('" +:+ baseUrl +:+ "');";
      "    cy.get('" +:+ selector +:+ "').clear();";
      "    cy.get('button[type=" +:+ dq +:+ "submit" +:+ dq +:+ "]').click();";
      "    cy.get('.error, .invalid-feedback').should('be.visible');";
      "  });";
      "});" ].

Definition generateLinkTest_playwrightCode (element : ScrapedElement) (baseUrl selector href : string) : string :=
  unlines
    [ "";
      "import { test, expect } from '@playwright/test';";
      "";
      "test('Link navigation test - " +:+ orElse (el_text element) "Link" +:+ "', async ({ page }) => {";
      "  await page.goto('" +:+ baseUrl +:+ "');";
      "  await page.click('" +:+ selector +:+ "');";
      "  await expect(page).toHaveURL('" +:+ (if startsWith href "/" then baseUrl +:+ href else href) +:+ "');";
      "});" ].

Definition generateLinkTest_seleniumCode (baseUrl selector href : string) : string :=
  unlines
    [ "";
      "from selenium import webdriver";
      "from selenium.webdriver.common.by import By";
      "";
      "def test_link_navigation():";
      "    driver = webdriver.Chrome()";
      "    try:";
      "        driver.get('" +:+ baseUrl +:+ "')";
      "        link = driver.find_element(By.CSS_SELECTOR, '" +:+ selector +:+ "')";
      "        link.click()";
      "        expected_url = '" +:+ (if startsWith href "/" then baseUrl +:+ href else href) +:+ "'";
      "        assert driver.current_url == expected_url";
      "    finally:";
      "        driver.quit()" ].

Definition generateLinkTest_cypressCode (element : ScrapedElement) (baseUrl selector href : string) : string :=
  unlines
    [ "";
      "describe('Link Tests', () => {";
      "  it('should navigate to " +:+ orElse (el_text element) "link" +:+ " destination', () => {";
      "    cy.visit('" +:+ baseUrl +:+ "');";
      "    cy.get('" +:+ selector +:+ "').click();";
      "    cy.url().should('eq', '" +:+ (if startsWith href "/" then baseUrl +:+ href else href) +:+ "');";
      "  });";
      "});" ].

Definition generateFormTest_playwrightCode (baseUrl selector : string) : string :=
  unlines
    [ "";
      "import { test, expect } from '@playwright/test';";
      "";
      "test('Form submission test', async ({ page }) => {";
      "  await page.goto('" +:+ baseUrl +:+ "');";
      "  ";
      "  // Fill form fields";
      "  await page.fill('input[type=" +:+ dq +:+ "email" +:+ dq +:+ "]', 'test@example.com');";
      "  await page.fill('input[type=" +:+ dq +:+ "password" +:+ dq +:+ "]', 'password123');";
      "  ";
      "  // Submit form";
      "  await page.click('" +:+ selector +:+ " button[type=" +:+ dq +:+ "submit" +:+ dq +:+ "]');";
      "  ";
      "  // Add assertions for successful submission";
      "  await expect(page.locator('.success-message')).toBeVisible();";
      "});" ].

Definition generateFormTest_seleniumCode (baseUrl selector : string) : string :=
  unlines
    [ "";
      "from selenium import webdriver";
      "from selenium.webdriver.common.by import By";
      "";
      "def test_form_submission():";
      "    driver = webdriver.Chrome()";
      "    try:";
      "        driver.get('" +:+ baseUrl +:+ "')";
      "        ";
      "        # Fill form fields";
      "        email_field = driver.find_element(By.CSS_SELECTOR, 'input[type=" +:+ dq +:+ "email" +:+ dq +:+ "]')";
      "        email_field.send_keys('test@example.com')";
      "        ";
      "        password_field = driver.find_element(By.CSS_SELECTOR, 'input[type=" +:+ dq +:+ "password" +:+ dq +:+ "]')";
      "        password_field.send_keys('password123')";
      "        ";
      "        # Submit form";
      "        submit_btn = driver.find_element(By.CSS_SELECTOR, '" +:+ selector +:+ " button[type=" +:+ dq +:+ "submit" +:+ dq +:+ "]')";
      "        submit_btn.click()";
      "        ";
      "        # Check for success message";
      "        success_msg = driver.find_element(By.CSS_SELECTOR, '.success-message')";
      "        assert success_msg.is_displayed()";
      "    finally:";
      "        driver.quit()" ].

Definition generateFormTest_cypressCode (baseUrl selector : string) : string :=
  unlines
    [ "";
      "describe('Form Tests', () => {";
      "  it('should submit form successfully', () => {";
      "    cy.visit('" +:+ baseUrl +:+ "');";
      "    ";
      "    // Fill form fields";
      "    cy.get('input[type=" +:+ dq +:+ "email" +:+ dq +:+ "]').type('test@example.com');";
      "    cy.get('input[type=" +:+ dq +:+ "password" +:+ dq +:+ "]').type('password123');";
      "    ";
      "    // Submit form";
      "    cy.get('" +:+ selector +:+ " button[type=" +:+ dq +:+ "submit" +:+ dq +:+ "]').click();";
      "    ";
      "    // Check for success";
      "    cy.get('.success-message').should('be.visible');";
      "  });";
      "});" ].

Definition generateWorkflowTest_playwrightCode (baseUrl : string) : string :=
  unlines
    [ "";
      "import { test, expect } from '@playwright/test';";
      "";
      "test('Complete user workflow test', async ({ page }) => {";
      "  await page.goto('" +:+ baseUrl +:+ "');";
      "  ";
      "  // Step 1: Fill login form";
      "  await page.fill('input[name=" +:+ dq +:+ "email" +:+ dq +:+ "]', 'user@example.com');";
      "  await page.fill('input[name=" +:+ dq +:+ "password" +:+ dq +:+ "]', 'password123');";
      "  ";
      "  // Step 2: Submit form";
      "  await page.click('#login-btn');";
      "  ";
      "  // Step 3: Verify successful login";
      "  await expect(page).toHaveURL(/.*dashboard.*/);";
      "  ";
      "  // Step 4: Navigate to profile";
      "  await page.click('a[href=" +:+ dq +:+ "/profile" +:+ dq +:+ "]');";
      "  ";
      "  // Step 5: Verify profile page";
      "  await expect(page.locator('h1')).toContainText('Profile');";
      "});" ].

Definition generateWorkflowTest_seleniumCode (baseUrl : string) : string :=
  unlines
    [ "";
      "from selenium import webdriver";
      "from selenium.webdriver.common.by import By";
      "from selenium.webdriver.support.ui import WebDriverWait";
      "from selenium.webdriver.support import expected_conditions as EC";
      "";
      "def test_complete_workflow():";
      "    driver = webdriver.Chrome()";
      "    try:";
      "        driver.get('" +:+ baseUrl +:+ "')";
      "        ";
      "        # Step 1: Fill login form";
      "        email_field = driver.find_element(By.NAME, 'email')";
      "        email_field.send_keys('user@example.com')";
      "        ";
      "        password_field = driver.find_element(By.NAME, 'password')";
      "        password_field.send_keys('password123')";
      "        ";
      "        # Step 2: Submit form";
      "        login_btn = driver.find_element(By.ID, 'login-btn')";
      "        login_btn.click()";
      "        ";
      "        # Step 3: Wait for dashboard";
      "        WebDriverWait(driver, 10).until(";
      "            EC.url_contains('dashboard')";
      "        )";
      "        ";
      "        # Step 4: Navigate to profile";
      "        profile_link = driver.find_element(By.CSS_SELECTOR, 'a[href=" +:+ dq +:+ "/profile" +:+ dq +:+ "]')";
      "        profile_link.click()";
      "        ";
      "        # Step 5: Verify profile page";
      "        h1 = WebDriverWait(driver, 10).until(";
      "            EC.presence_of_element_located((By.TAG_NAME, 'h1'))";
      "        )";
      "        assert 'Profile' in h1.text";
      "    finally:";
      "        driver.quit()" ].

Definition generateWorkflowTest_cypressCode (baseUrl : string) : string :=
  unlines
    [ "";
      "describe('Complete Workflow Tests', () => {";
      "  it('should complete full user journey', () => {";
      "    cy.visit('" +:+ baseUrl +:+ "');";
      "    ";
      "    // Step 1: Fill login form";
      "    cy.get('input[name=" +:+ dq +:+ "email" +:+ dq +:+ "]').type('user@example.com');";
      "    cy.get('input[name=" +:+ dq +:+ "password" +:+ dq +:+ "]').type('password123');";
      "    ";
      "    // Step 2: Submit form";
      "    cy.get('#login-btn').click();";
      "    ";
      "    // Step 3: Verify dashboard";
      "    cy.url().should('include', 'dashboard');";
      "    ";
      "    // Step 4: Navigate to profile";
      "    cy.get('a[href=" +:+ dq +:+ "/profile" +:+ dq +:+ "]').click();";
      "    ";
      "    // Step 5: Verify profile page";
      "    cy.get('h1').should('contain', 'Profile');";
      "  });";
      "});" ].

(** *** The generators *)

(** The own properties of the object literal
    [{ playwright: .., selenium: .., cypress: .. }]. *)
Definition codeMapOf (playwrightCode seleniumCode cypressCode : string) : gmap string string :=
  {[ "playwright" := playwrightCode; "selenium" := seleniumCode; "cypress" := cypressCode ]}.

Definition generateButtonTest (element : ScrapedElement) (framework baseUrl : string) (index : nat) : TestCase :=
  let selector := el_selector element in
  let codeMap := codeMapOf (generateButtonTest_playwrightCode element baseUrl selector)
                           (generateButtonTest_seleniumCode baseUrl selector)
                           (generateButtonTest_cypressCode element baseUrl selector) in
  {| tc_id := "btn-test-" +:+ decimal index;
     tc_name := "Button Click Test - " +:+ orElse (el_text element) "Button";
     tc_description := "Test clicking the " +:+ orElse (el_text element) "button" +:+ " element";
     tc_framework := framework;
     tc_code := getProperty codeMap framework;
     tc_elements := [el_id element];
     tc_priority := high;
     tc_category := functional |}.

Definition generateInputTest (element : ScrapedElement) (framework baseUrl : string) (index : nat) : TestCase :=
  let selector := el_selector element in
  let inputType := orElse (el_attributes element !! "type") "text" in
  let codeMap := codeMapOf (generateInputTest_playwrightCode element baseUrl selector)
                           (generateInputTest_seleniumCode baseUrl selector)
                           (generateInputTest_cypressCode element baseUrl selector) in
  {| tc_id := "input-test-" +:+ decimal index;
     tc_name := "Input Field Test - " +:+ orElse (el_attributes element !! "name") "Input";
     tc_description := "Test filling the " +:+ orElse (el_attributes element !! "name") "input" +:+ " field";
     tc_framework := framework;
     tc_code := getProperty codeMap framework;
     tc_elements := [el_id element];
     tc_priority := medium;
     tc_category := functional |}.

Definition generateNegativeInputTest (element : ScrapedElement) (framework baseUrl : string) (index : nat) : TestCase :=
  let selector := el_selector element in
  let codeMap := codeMapOf (generateNegativeInputTest_playwrightCode element baseUrl selector)
                           (generateNegativeInputTest_seleniumCode baseUrl selector)
                           (generateNegativeInputTest_cypressCode element baseUrl selector) in
  {| tc_id := "negative-input-test-" +:+ decimal index;
     tc_name := "Negative Input Test - " +:+ orElse (el_attributes element !! "name") "Input";
     tc_description := "Test validation for empty " +:+ orElse (el_attributes element !! "name") "input" +:+ " field";
     tc_framework := framework;
     tc_code := getProperty codeMap framework;
     tc_elements := [el_id element];
     tc_priority := medium;
     tc_category := functional |}.

Definition generateLinkTest (element : ScrapedElement) (framework baseUrl : string) (index : nat) : TestCase :=
  let selector := el_selector element in
  let href := orElse (el_attributes element !! "href") "#" in
  let codeMap := codeMapOf (generateLinkTest_playwrightCode element baseUrl selector href)
                           (generateLinkTest_seleniumCode baseUrl selector href)
                           (generateLinkTest_cypressCode element baseUrl selector href) in
  {| tc_id := "link-test-" +:+ decimal index;
     tc_name := "Link Navigation Test - " +:+ orElse (el_text element) "Link";
     tc_description := "Test navigation for " +:+ orElse (el_text element) "link" +:+ " element";
     tc_framework := framework;
     tc_code := getProperty codeMap framework;
     tc_elements := [el_id element];
     tc_priority := low;
     tc_category := functional |}.

Definition generateFormTest (element : ScrapedElement) (framework baseUrl : string) (index : nat) : TestCase :=
  let selector := el_selector element in
  let codeMap := codeMapOf (generateFormTest_playwrightCode baseUrl selector)
                           (generateFormTest_seleniumCode baseUrl selector)
                           (generateFormTest_cypressCode baseUrl selector) in
  {| tc_id := "form-test-" +:+ decimal index;
     tc_name := "Form Submission Test";
     tc_description := "Test complete form submission workflow";
     tc_framework := framework;
     tc_code := getProperty codeMap framework;
     tc_elements := [el_id element];
     tc_priority := high;
     tc_category := integration |}.

Definition generateWorkflowTest (elements : list ScrapedElement) (framework baseUrl : string) : TestCase :=
  let codeMap := codeMapOf (generateWorkflowTest_playwrightCode baseUrl)
                           (generateWorkflowTest_seleniumCode baseUrl)
                           (generateWorkflowTest_cypressCode baseUrl) in
  {| tc_id := "workflow-test-1";
     tc_name := "Complete User Workflow Test";
     tc_description := "End-to-end test covering login, navigation, and profile access";
     tc_framework := framework;
     tc_code := getProperty codeMap framework;
     tc_elements := map el_id elements;
     tc_priority := high;
     tc_category := integration |}.

(** The callback of [config.elements.forEach]: what it pushes for one
    element, in order. *)
Definition generateTestCases_callback (config : GenerateTestsConfig)
    (element : ScrapedElement) (index : nat) : list TestCase :=
  match el_type element with
  | button =>
      [generateButtonTest element (cfg_framework config) (cfg_baseUrl config) index]
  | input =>
      generateInputTest element (cfg_framework config) (cfg_baseUrl config) index ::
      (if cfg_includeNegativeTests config
       then [generateNegativeInputTest element (cfg_framework config) (cfg_baseUrl config) index]
       else [])
  | link =>
      [generateLinkTest element (cfg_framework config) (cfg_baseUrl config) index]
  | form =>
      [generateFormTest element (cfg_framework config) (cfg_baseUrl config) index]
  | _ => []
  end.

(** [elements.forEach(callback)] from position [index] on. *)
Fixpoint generateTestCases_forEach (config : GenerateTestsConfig)
    (index : nat) (elements : list ScrapedElement) : list TestCase :=
  match elements with
  | [] => []
  | element :: rest =>
      generateTestCases_callback config element index ++
      generateTestCases_forEach config (S index) rest
  end.

Definition generateTestCases (config : GenerateTestsConfig) : Promise (list TestCase) :=
  let testCases := generateTestCases_forEach config 0 (cfg_elements config) in
  let formElements := filter (fun el => el_type el = form) (cfg_elements config) in
  let testCases :=
    if 0 <? length formElements
    then testCases ++ [generateWorkflowTest (cfg_elements config) (cfg_framework config) (cfg_baseUrl config)]
    else testCases in
  Resolved testCases.

End TestGenerator.
Import TestGenerator.

(** ** The run-time environment *)

Module Runtime.

(** Built-ins of the JavaScript engine that the sources call and that are
    left uninterpreted here. *)
Record Host : Type := {
  (** [x.toString(radix)] of a number *)
  Number_toString : float -> nat -> string;
  (** [Math.floor(x)] *)
  Math_floor : float -> float;
  (** [d.toISOString()] of a date with a valid time value *)
  Date_toISOString : Z -> string;
  (** the message of the [RangeError] that [toISOString] throws on the
      invalid date *)
  invalidTimeMessage : string;
  (** [new URL(url)] returns rather than throws *)
  URL_parses : string -> bool
}.

(** The two sources of non-determinism: the system clock and the random
    number generator.  [clock k] is what the [k]-th reading of the clock
    returns and [random k] what the [k]-th call of [Math.random] returns; the
    counters say how many readings and calls have been made. *)
Record World : Type := {
  clock : nat -> Z;
  random : nat -> float;
  clockReads : nat;
  randomDraws : nat
}.

(** A computation that may read the clock and draw random numbers. *)
Definition Io (A : Type) : Type := World -> A * World.

Definition ret {A : Type} (a : A) : Io A := fun w => (a, w).

Definition bind {A B : Type} (m : Io A) (k : A -> Io B) : Io B :=
  fun w => let (a, w') := m w in k a w'.

(** [Date.now()]. *)
Definition Date_now : Io Z :=
  fun w =>
    (clock w (clockReads w),
     {| clock := clock w; random := random w;
        clockReads := S (clockReads w); randomDraws := randomDraws w |}).

(** [new Date()]. *)
Definition new_Date : Io Date := bind Date_now (fun ms => ret (TimeValue ms)).

(** [Math.random()]. *)
Definition Math_random : Io float :=
  fun w =>
    (random w (randomDraws w),
     {| clock := clock w; random := random w;
        clockReads := clockReads w; randomDraws := S (randomDraws w) |}).

(** The value an [Io] computation produces in a world. *)
Definition valueIn {A : Type} (w : World) (m : Io A) : A := fst (m w).

End Runtime.
Import Runtime.

Notation "x <- m ;; k" := (bind m (fun x => k))
  (at level 100, m at next level, right associativity).

(** ** src/lib/bugDetector.ts *)

Module BugDetector.

Inductive BugSeverity : Type := critical | major | minor | trivial.
Inductive BugStatus : Type := open | in_progress | resolved | closed.
Inductive BugCategory : Type := functional | ui | performance | security | usability.

#[export] Instance BugSeverity_eq_dec : EqDecision BugSeverity.
Proof. solve_decision. Defined.
#[export] Instance BugStatus_eq_dec : EqDecision BugStatus.
Proof. solve_decision. Defined.
#[export] Instance BugCategory_eq_dec : EqDecision BugCategory.
Proof. solve_decision. Defined.

Definition severityTag (s : BugSeverity) : string :=
  match s with
  | critical => "critical"
  | major => "major"
  | minor => "minor"
  | trivial => "trivial"
  end.

Definition bugCategoryTag (c : BugCategory) : string :=
  match c with
  | functional => "functional"
  | ui => "ui"
  | performance => "performance"
  | security => "security"
  | usability => "usability"
  end.

Record Bug : Type := {
  bug_id : string;
  bug_title : string;
  bug_description : string;
  bug_severity : BugSeverity;
  bug_status : BugStatus;
  bug_category : BugCategory;
  bug_url : string;
  bug_element : option string;
  bug_screenshot : option string;
  bug_steps : list string;
  bug_expectedResult : string;
  bug_actualResult : string;
  bug_testCaseId : option string;
  bug_jiraTicket : option string;
  bug_createdAt : Date;
  bug_updatedAt : Date;
  bug_assignee : option string;
  bug_reporter : string
}.

Inductive ExecutionStatus : Type := passed | failed | skipped.

#[export] Instance ExecutionStatus_eq_dec : EqDecision ExecutionStatus.
Proof. solve_decision. Defined.

Record TestExecution : Type := {
  exec_id : string;
  exec_testCaseId : string;
  exec_status : ExecutionStatus;
  exec_duration : float;
  exec_error : option string;
  exec_screenshot : option string;
  exec_timestamp : Date
}.

Record Thresholds : Type := {
  loadTime : float;
  visualDifference : float;
  accessibilityScore : float
}.

Record BugDetectionConfig : Type := {
  enableVisualTesting : bool;
  enablePerformanceTesting : bool;
  enableAccessibilityTesting : bool;
  thresholds : Thresholds
}.

Definition determineBugSeverity (error testPriority : string) : BugSeverity :=
  if includes (toLowerCase error) "timeout" || includes (toLowerCase error) "not found"
  then critical
  else if includes (toLowerCase error) "assertion" || includes (toLowerCase error) "expected"
  then (if String.eqb testPriority "high" then major else minor)
  else minor.

Definition mapTestCategoryToBugCategory (testCategory : string) : BugCategory :=
  if String.eqb testCategory "functional" then functional
  else if String.eqb testCategory "ui" then ui
  else if String.eqb testCategory "integration" then functional
  else functional.

Section WithHost.

Variable host : Host.

Definition createBugFromFailedTest (execution : TestExecution) (testCase : TestCase)
    (config : BugDetectionConfig) : Io Bug :=
  let severity :=
    determineBugSeverity (orElse (exec_error execution) "") (priorityTag (tc_priority testCase)) in
  now <- Date_now;;
  r <- Math_random;;
  createdAt <- new_Date;;
  updatedAt <- new_Date;;
  ret {| bug_id := "bug-" +:+ decimalZ now +:+ "-" +:+ substr (Number_toString host r 36) 2 9;
         bug_title := "Test Failure: " +:+ tc_name testCase;
         bug_description :=
           "Automated test " +:+ dq +:+ tc_name testCase +:+ dq +:+ " failed during execution.";
         bug_severity := severity;
         bug_status := open;
         bug_category := mapTestCategoryToBugCategory (categoryTag (tc_category testCase));
         bug_url := "https://example.com";
         bug_element := head (tc_elements testCase);
         bug_screenshot := exec_screenshot execution;
         bug_steps :=
           [ "Navigate to the test page";
             "Execute the automated test case";
             "Observe the failure" ];
         bug_expectedResult := "Test should pass without errors";
         bug_actualResult := orElse (exec_error execution) "Test failed with unknown error";
         bug_testCaseId := Some (tc_id testCase);
         bug_jiraTicket := None;
         bug_createdAt := createdAt;
         bug_updatedAt := updatedAt;
         bug_assignee := None;
         bug_reporter := "QA Automation Tool" |}.

Definition generateMockVisualBugs : Io (list Bug) :=
  createdAt <- new_Date;;
  updatedAt <- new_Date;;
  ret [ {| bug_id := "visual-bug-1";
           bug_title := "Button alignment issue on mobile";
           bug_description := "Login button is misaligned on mobile devices";
           bug_severity := minor;
           bug_status := open;
           bug_category := ui;
           bug_url := "https://example.com/login";
           bug_element := Some "#login-btn";
           bug_screenshot :=
             Some "https://via.placeholder.com/400x800/ffff00/000000?text=Mobile+Layout+Issue";
           bug_steps :=
             [ "Open the login page on mobile device";
               "Observe the button alignment";
               "Compare with desktop version" ];
           bug_expectedResult := "Button should be centered and properly aligned";
           bug_actualResult := "Button appears off-center and overlaps with other elements";
           bug_testCaseId := None;
           bug_jiraTicket := None;
           bug_createdAt := createdAt;
           bug_updatedAt := updatedAt;
           bug_assignee := None;
           bug_reporter := "Visual Testing Tool" |} ].

Definition generateMockPerformanceBugs : Io (list Bug) :=
  createdAt <- new_Date;;
  updatedAt <- new_Date;;
  ret [ {| bug_id := "perf-bug-1";
           bug_title := "Slow page load time";
           bug_description := "Homepage takes more than 5 seconds to load";
           bug_severity := major;
           bug_status := open;
           bug_category := performance;
           bug_url := "https://example.com";
           bug_element := None;
           bug_screenshot := None;
           bug_steps :=
             [ "Navigate to homepage";
               "Measure load time";
               "Compare with performance threshold" ];
           bug_expectedResult := "Page should load within 3 seconds";
           bug_actualResult := "Page loads in 6.2 seconds";
           bug_testCaseId := None;
           bug_jiraTicket := None;
           bug_createdAt := createdAt;
           bug_updatedAt := updatedAt;
           bug_assignee := None;
           bug_reporter := "Performance Testing Tool" |} ].

Definition generateMockAccessibilityBugs : Io (list Bug) :=
  createdAt <- new_Date;;
  updatedAt <- new_Date;;
  ret [ {| bug_id := "a11y-bug-1";
           bug_title := "Missing alt text for images";
           bug_description := "Product images are missing alternative text for screen readers";
           bug_severity := major;
           bug_status := open;
           bug_category := usability;
           bug_url := "https://example.com/products";
           bug_element := Some "img.product-image";
           bug_screenshot := None;
           bug_steps :=
             [ "Navigate to products page";
               "Run accessibility audit";
               "Check image alt attributes" ];
           bug_expectedResult := "All images should have descriptive alt text";
           bug_actualResult := "15 images are missing alt attributes";
           bug_testCaseId := None;
           bug_jiraTicket := None;
           bug_createdAt := createdAt;
           bug_updatedAt := updatedAt;
           bug_assignee := None;
           bug_reporter := "Accessibility Testing Tool" |} ].

(** The loop [for (const execution of failedExecutions)]: the bugs it pushes,
    in order. *)
Fixpoint detectBugs_loop (failedExecutions : list TestExecution) (testCases : list TestCase)
    (config : BugDetectionConfig) : Io (list Bug) :=
  match failedExecutions with
  | [] => ret []
  | execution :: rest =>
      match List.find (fun tc => String.eqb (tc_id tc) (exec_testCaseId execution)) testCases with
      | None => detectBugs_loop rest testCases config
      | Some testCase =>
          bug <- createBugFromFailedTest execution testCase config;;
          bugs <- detectBugs_loop rest testCases config;;
          ret (bug :: bugs)
      end
  end.

Definition detectBugs (executions : list TestExecution) (testCases : list TestCase)
    (config : BugDetectionConfig) : Io (Promise (list Bug)) :=
  let failedExecutions := filter (fun exec => exec_status exec = failed) executions in
  bugs <- detectBugs_loop failedExecutions testCases config;;
  visual <- (if enableVisualTesting config then generateMockVisualBugs else ret []);;
  perf <- (if enablePerformanceTesting config then generateMockPerformanceBugs else ret []);;
  a11y <- (if enableAccessibilityTesting config then generateMockAccessibilityBugs else ret []);;
  ret (Resolved (bugs ++ visual ++ perf ++ a11y)).

End WithHost.

End BugDetector.
Import BugDetector.

(** ** The Jira integration library *)

Module JiraIntegration.

Record JiraConfig : Type := {
  baseUrl : string;
  email : string;
  apiToken : string;
  projectKey : string;
  issueType : string;
  autoCreateTickets : bool
}.

(** [Partial<JiraConfig>]: every field may be missing. *)
Record PartialJiraConfig : Type := {
  partial_baseUrl : option string;
  partial_email : option string;
  partial_apiToken : option string;
  partial_projectKey : option string;
  partial_issueType : option string;
  partial_autoCreateTickets : option bool
}.

(** A full configuration seen as a partial one. *)
Definition asPartial (config : JiraConfig) : PartialJiraConfig :=
  {| partial_baseUrl := Some (baseUrl config);
     partial_email := Some (email config);
     partial_apiToken := Some (apiToken config);
     partial_projectKey := Some (projectKey config);
     partial_issueType := Some (issueType config);
     partial_autoCreateTickets := Some (autoCreateTickets config) |}.

Record JiraTicket : Type := {
  ticket_id : string;
  ticket_key : string;
  ticket_summary : string;
  ticket_description : string;
  ticket_priority : string;
  ticket_status : string;
  ticket_assignee : option string;
  ticket_reporter : string;
  ticket_created : Date;
  ticket_updated : Date;
  ticket_url : string
}.

Record CreateTicketRequest : Type := {
  request_summary : string;
  request_description : string;
  request_priority : string;
  request_issueType : string;
  request_projectKey : string;
  request_assignee : option string;
  request_labels : option (list string)
}.

(** How a piece of synchronous code completes: with a value, or by throwing
    an [Error] with a message. *)
Inductive Completion (A : Type) : Type :=
  | Normal (value : A)
  | Thrown (message : string).
Arguments Normal {A} value.
Arguments Thrown {A} message.

(** The [switch] of [mapBugSeverityToJiraPriority], on the run-time string. *)
Definition mapBugSeverityToJiraPriority_switch (severity : string) : string :=
  if String.eqb severity "critical" then "Blocker"
  else if String.eqb severity "major" then "High"
  else if String.eqb severity "minor" then "Medium"
  else if String.eqb severity "trivial" then "Low"
  else "Medium".

Definition mapBugSeverityToJiraPriority (severity : BugSeverity) : string :=
  mapBugSeverityToJiraPriority_switch (severityTag severity).

(** The regular expression [/^[^\s@]+@[^\s@]+\.[^\s@]+$/]: a non-empty run of
    characters other than white space and [@], an [@], and a run of such
    characters with a dot that is neither its first nor its last character.
    [allEmailChars s]: no white space character and no [@] starts at a
    position of [s]. *)
Fixpoint allEmailChars (s : string) : bool :=
  match s with
  | EmptyString => true
  | String c r => negb (startsWithWhiteSpace s) && negb (Ascii.eqb c "@") && allEmailChars r
  end.

(** Some dot of [s] has a character before it (when [seenOne]) and after it. *)
Fixpoint hasInnerDot (seenOne : bool) (s : string) : bool :=
  match s with
  | EmptyString => false
  | String c r =>
      (seenOne && Ascii.eqb c "." && negb (String.eqb r EmptyString)) || hasInnerDot true r
  end.

(** The part of [s] before its first [@] and the part after it. *)
Fixpoint splitAtSign (s : string) : option (string * string) :=
  match s with
  | EmptyString => None
  | String c r =>
      if Ascii.eqb c "@" then Some (EmptyString, r)
      else match splitAtSign r with
           | Some (before, after) => Some (String c before, after)
           | None => None
           end
  end.

Definition isValidEmail (email : string) : bool :=
  match splitAtSign email with
  | Some (localPart, domain) =>
      negb (String.eqb localPart EmptyString) && allEmailChars localPart &&
      allEmailChars domain && hasInnerDot false domain
  | None => false
  end.

Section WithHost.

Variable host : Host.

(** [d.toISOString()]. *)
Definition toISOString (d : Date) : Completion string :=
  match d with
  | TimeValue ms => Normal (Date_toISOString host ms)
  | InvalidDate => Thrown (invalidTimeMessage host)
  end.

(** [`${x}`] for a number [x]. *)
Definition numberText (x : float) : string := Number_toString host x 10.

Definition formatBugDescriptionForJira (bug : Bug) : Completion string :=
  match toISOString (bug_createdAt bug) with
  | Thrown message => Thrown message
  | Normal created =>
      Normal (trim (unlines
        [ "";
          "*Bug Description:*";
          bug_description bug;
          "";
          "*Steps to Reproduce:*";
          join nl (imap (fun index step => decimal (index + 1) +:+ ". " +:+ step) (bug_steps bug));
          "";
          "*Expected Result:*";
          bug_expectedResult bug;
          "";
          "*Actual Result:*";
          bug_actualResult bug;
          "";
          "*Additional Information:*";
          "- URL: " +:+ bug_url bug;
          "- Element: " +:+ orElse (bug_element bug) "N/A";
          "- Category: " +:+ bugCategoryTag (bug_category bug);
          "- Test Case ID: " +:+ orElse (bug_testCaseId bug) "N/A";
          "- Reporter: " +:+ bug_reporter bug;
          "- Created: " +:+ created;
          "";
          (if truthy (bug_screenshot bug)
           then "*Screenshot:* " +:+ orElse (bug_screenshot bug) ""
           else "");
          "  " ]))
  end.

Definition createJiraTicket (bug : Bug) (config : JiraConfig) : Io (Promise JiraTicket) :=
  let priority := mapBugSeverityToJiraPriority (bug_severity bug) in
  match formatBugDescriptionForJira bug with
  | Thrown message => ret (Rejected ("Failed to create Jira ticket: " +:+ message))
  | Normal description =>
      let ticketRequest :=
        {| request_summary := bug_title bug;
           request_description := description;
           request_priority := priority;
           request_issueType := issueType config;
           request_projectKey := projectKey config;
           request_assignee := None;
           request_labels := Some ["automation"; "qa-tool"; bugCategoryTag (bug_category bug)] |} in
      r1 <- Math_random;;
      r2 <- Math_random;;
      created <- new_Date;;
      updated <- new_Date;;
      r3 <- Math_random;;
      ret (Resolved
        {| ticket_id := numberText (Math_floor host (r1 * 10000)%float);
           ticket_key :=
             projectKey config +:+ "-" +:+ numberText (Math_floor host (r2 * 1000)%float);
           ticket_summary := request_summary ticketRequest;
           ticket_description := request_description ticketRequest;
           ticket_priority := request_priority ticketRequest;
           ticket_status := "Open";
           ticket_assignee := None;
           ticket_reporter := email config;
           ticket_created := created;
           ticket_updated := updated;
           ticket_url :=
             baseUrl config +:+ "/browse/" +:+ projectKey config +:+ "-" +:+
             numberText (Math_floor host (r3 * 1000)%float) |})
  end.

Definition isValidUrl (url : string) : bool := URL_parses host url.

Definition validateJiraConfig (config : PartialJiraConfig) : list string :=
  let errors : list string := [] in
  let errors :=
    if negb (truthy (partial_baseUrl config)) then errors ++ ["Base URL is required"]
    else if negb (isValidUrl (orElse (partial_baseUrl config) ""))
    then errors ++ ["Base URL must be a valid URL"]
    else errors in
  let errors :=
    if negb (truthy (partial_email config)) then errors ++ ["Email is required"]
    else if negb (isValidEmail (orElse (partial_email config) ""))
    then errors ++ ["Email must be a valid email address"]
    else errors in
  let errors :=
    if negb (truthy (partial_apiToken config)) then errors ++ ["API Token is required"]
    else errors in
  let errors :=
    if negb (truthy (partial_projectKey config)) then errors ++ ["Project Key is required"]
    else errors in
  let errors :=
    if negb (truthy (partial_issueType config)) then errors ++ ["Issue Type is required"]
    else errors in
  errors.

End WithHost.

End JiraIntegration.
Import JiraIntegration.

(** ** The reporting dashboard *)

Module ReportingDashboard.

(** An array length as a number. *)
Definition number (n : nat) : float := PrimFloat.of_uint63 (Uint63.of_Z (Z.of_nat n)).

(** [Math.max(a, b)]: [NaN] when an argument is, and [+0] above [-0]. *)
Definition Math_max (a b : float) : float :=
  if PrimFloat.is_nan a || PrimFloat.is_nan b then PrimFloat.nan
  else if PrimFloat.ltb a b then b
  else if PrimFloat.ltb b a then a
  else if PrimFloat.is_zero a && PrimFloat.get_sign a then b
  else a.

(** [Math.round(x)]: the integer closest to [x], and the larger one when two
    are equally close; [-0] for a negative [x] that rounds to zero. *)
Definition Math_round (x : float) : float :=
  match Prim2SF x with
  | S754_finite s m e =>
      if (0 <=? e)%Z then x
      else
        let scale := (2 ^ (- e))%Z in
        let numerator := if s then Z.neg m else Z.pos m in
        let rounded := ((2 * numerator + scale) / (2 * scale))%Z in
        if (rounded =? 0)%Z then (if s then (-0)%float else 0%float)
        else if (0 <? rounded)%Z then PrimFloat.of_uint63 (Uint63.of_Z rounded)
        else (- PrimFloat.of_uint63 (Uint63.of_Z (- rounded)))%float
  | _ => x
  end.

(** The [summary] of the report [handleExportReport] writes. *)
Record ReportSummary : Type := {
  summary_totalTests : nat;
  summary_totalBugs : nat;
  summary_passRate : float;
  summary_criticalBugs : nat;
  summary_majorBugs : nat;
  summary_minorBugs : nat;
  summary_openBugs : nat;
  summary_resolvedBugs : nat
}.

Section Statistics.

Variable bugs : list Bug.
Variable testCases : list TestCase.

Definition totalTests : nat := length testCases.
Definition totalBugs : nat := length bugs.
Definition criticalBugs : nat := length (filter (fun bug => bug_severity bug = critical) bugs).
Definition majorBugs : nat := length (filter (fun bug => bug_severity bug = major) bugs).
Definition minorBugs : nat := length (filter (fun bug => bug_severity bug = minor) bugs).
Definition openBugs : nat := length (filter (fun bug => bug_status bug = open) bugs).
Definition resolvedBugs : nat := length (filter (fun bug => bug_status bug = resolved) bugs).

Definition passRate : float :=
  if 0 <? totalTests
  then Math_max 0 (100 - (number totalBugs / number totalTests) * 100)
  else 0%float.

(** [reportData.summary] in [handleExportReport]. *)
Definition handleExportReport_summary : ReportSummary :=
  {| summary_totalTests := totalTests;
     summary_totalBugs := totalBugs;
     summary_passRate := Math_round passRate;
     summary_criticalBugs := criticalBugs;
     summary_majorBugs := majorBugs;
     summary_minorBugs := minorBugs;
     summary_openBugs := openBugs;
     summary_resolvedBugs := resolvedBugs |}.

(** The percentage the pass rate card shows, [Math.round(passRate)]. *)
Definition displayedPassRate : float := Math_round passRate.

End Statistics.

End ReportingDashboard.
Import ReportingDashboard.

(** ** The configurations the components pass *)

Module Components.

(** [TestCaseManager.handleGenerateTests]: the configuration it builds from
    the scraped elements and the selected framework. *)
Definition handleGenerateTests_config (elements : list ScrapedElement)
    (selectedFramework : string) : GenerateTestsConfig :=
  {| cfg_elements := elements;
     cfg_framework := selectedFramework;
     cfg_baseUrl := "https://example.com";
     cfg_includeValidation := true;
     cfg_includeNegativeTests := true |}.

(** [BugDetectionLogs]: the configuration it passes to [detectBugs]. *)
Definition bugDetectionConfig : BugDetectionConfig :=
  {| enableVisualTesting := true;
     enablePerformanceTesting := true;
     enableAccessibilityTesting := true;
     thresholds :=
       {| loadTime := 3000;
          visualDifference := 0x1.999999999999ap-4 (* 0.1 *);
          accessibilityScore := 90 |} |}.

(** [JiraIntegration]: the configuration the panel starts with. *)
Definition initialJiraConfig : JiraConfig :=
  {| baseUrl := "";
     email := "";
     apiToken := "";
     projectKey := "";
     issueType := "Bug";
     autoCreateTickets := false |}.

End Components.
Import Components.

(** ** Readings of the specification's words

    The definitions of this module are not translations of code: each writes
    down a notion the specification uses, to be compared with what the code
    computes. *)

Module Spec.

(** "The error text contains [keyword] (case-insensitive)": some stretch of
    the text is the keyword up to the case of its letters. *)
Definition mentions (keyword text : string) : Prop :=
  exists before matched after,
    text = before +:+ matched +:+ after /\ toLowerCase matched = keyword.

(** The three rules of [severityFromError], for a present error text. *)
Definition severityRules (text : string) (priority : Priority) (severity : BugSeverity) : Prop :=
  let timeoutLike := mentions "timeout" text \/ mentions "not found" text in
  let assertionLike := mentions "assertion" text \/ mentions "expected" text in
  (timeoutLike -> severity = critical) /\
  (~ timeoutLike -> assertionLike ->
   severity = if decide (priority = high) then major else minor) /\
  (~ timeoutLike -> ~ assertionLike -> severity = minor).

(** [severityFromError]: an absent error gives [minor]. *)
Definition severityFromError (error : option string) (priority : Priority)
    (severity : BugSeverity) : Prop :=
  match error with
  | Some text => severityRules text priority severity
  | None => severity = minor
  end.

(** The failed results whose specification resolves, each with that
    specification, in the order of the results. *)
Definition resolvedFailures (executions : list TestExecution) (testCases : list TestCase) :
    list (TestExecution * TestCase) :=
  omap (fun execution =>
          if decide (exec_status execution = failed)
          then option_map (pair execution)
                 (List.find (fun tc => String.eqb (tc_id tc) (exec_testCaseId execution)) testCases)
          else None)
       executions.

(** A defect with its generated identifier blanked. *)
Definition withoutId (bug : Bug) : Bug :=
  {| bug_id := "";
     bug_title := bug_title bug;
     bug_description := bug_description bug;
     bug_severity := bug_severity bug;
     bug_status := bug_status bug;
     bug_category := bug_category bug;
     bug_url := bug_url bug;
     bug_element := bug_element bug;
     bug_screenshot := bug_screenshot bug;
     bug_steps := bug_steps bug;
     bug_expectedResult := bug_expectedResult bug;
     bug_actualResult := bug_actualResult bug;
     bug_testCaseId := bug_testCaseId bug;
     bug_jiraTicket := bug_jiraTicket bug;
     bug_createdAt := bug_createdAt bug;
     bug_updatedAt := bug_updatedAt bug;
     bug_assignee := bug_assignee bug;
     bug_reporter := bug_reporter bug |}.

(** A defect with its identifier and its two time stamps blanked. *)
Definition withoutIdAndTimes (bug : Bug) : Bug :=
  {| bug_id := "";
     bug_title := bug_title bug;
     bug_description := bug_description bug;
     bug_severity := bug_severity bug;
     bug_status := bug_status bug;
     bug_category := bug_category bug;
     bug_url := bug_url bug;
     bug_element := bug_element bug;
     bug_screenshot := bug_screenshot bug;
     bug_steps := bug_steps bug;
     bug_expectedResult := bug_expectedResult bug;
     bug_actualResult := bug_actualResult bug;
     bug_testCaseId := bug_testCaseId bug;
     bug_jiraTicket := bug_jiraTicket bug;
     bug_createdAt := InvalidDate;
     bug_updatedAt := InvalidDate;
     bug_assignee := bug_assignee bug;
     bug_reporter := bug_reporter bug |}.

(** "Equal in all fields except identifiers." *)
Definition sameExceptIds (bugs1 bugs2 : list Bug) : Prop :=
  map withoutId bugs1 = map withoutId bugs2.

Definition sameExceptIdsAndTimes (bugs1 bugs2 : list Bug) : Prop :=
  map withoutIdAndTimes bugs1 = map withoutIdAndTimes bugs2.

(** "max(0, x)": zero for an [x] that is not above zero, and [x] itself
    otherwise. *)
Definition clampAtZero (x : float) : float :=
  if PrimFloat.leb x 0 then 0%float else x.

(** "passRateEstimate = max(0, 100 - (totalDefects/totalSpecifications) x 100)
    when totalSpecifications > 0, else 0". *)
Definition passRateEstimate (totalDefects totalSpecifications : nat) : float :=
  if 0 <? totalSpecifications
  then clampAtZero (100 - (number totalDefects / number totalSpecifications) * 100)
  else 0%float.

(** "Holds neither white space nor [@]": none of these characters occurs in
    the text. *)
Definition plain (part : string) : Prop :=
  includes part "@" = false /\
  Forall (fun space => includes part space = false) whiteSpace.

(** "Syntactically valid email": the language of the regular expression
    [^[^\s@]+@[^\s@]+\.[^\s@]+$], three non-empty runs of characters other
    than white space and [@], separated by an [@] and a dot. *)
Definition emailShape (address : string) : Prop :=
  exists localPart label rest,
    address = localPart +:+ "@" +:+ label +:+ "." +:+ rest /\
    localPart <> EmptyString /\ label <> EmptyString /\ rest <> EmptyString /\
    plain localPart /\ plain label /\ plain rest.

(** No byte of the non-empty text [piece] is [separator]. *)
Definition avoids (separator : ascii) (piece : string) : bool :=
  negb (String.eqb piece EmptyString) &&
  forallb (fun c => negb (Ascii.eqb c separator)) (String.list_ascii_of_string piece).

(** The five requirements on a tracker configuration, in the order the
    specification lists them: a non-empty base URL that is a valid URL, a
    non-empty and syntactically valid email, a non-empty API token, a
    non-empty project key, a non-empty issue type. *)
Definition requirementsMet (host : Host) (config : PartialJiraConfig) : list bool :=
  [ match partial_baseUrl config with
    | Some url => negb (String.eqb url "") && URL_parses host url
    | None => false
    end;
    match partial_email config with
    | Some address => negb (String.eqb address "") && isValidEmail address
    | None => false
    end;
    match partial_apiToken config with
    | Some token => negb (String.eqb token "")
    | None => false
    end;
    match partial_projectKey config with
    | Some key => negb (String.eqb key "")
    | None => false
    end;
    match partial_issueType config with
    | Some type => negb (String.eqb type "")
    | None => false
    end ].

(** How many of the five requirements a configuration violates. *)
Definition violations (host : Host) (config : PartialJiraConfig) : nat :=
  length (filter (fun met => met = false) (requirementsMet host config)).

(** The workflow specification is the one specification that is not tied to
    a single element; the generator gives it the fixed identifier
    'workflow-test-1'. *)
Definition isWorkflowSpecification (tc : TestCase) : Prop := tc_id tc = "workflow-test-1".

#[export] Instance isWorkflowSpecification_dec (tc : TestCase) :
  Decision (isWorkflowSpecification tc).
Proof. unfold isWorkflowSpecification. apply _. Defined.












End Spec.
Import Spec.

(** ** Sample inputs *)

Module Examples.


(** The first two mock elements. *)
Definition loginButton : ScrapedElement :=
  {| el_id := "1";
     el_type := button;
     el_selector := "#login-btn";
     el_text := Some "Login";
     el_attributes := {[ "id" := "login-btn"; "class" := "btn btn-primary" ]};
     el_xpath := "//*[@id=" +:+ dq +:+ "login-btn" +:+ dq +:+ "]";
     el_position := (100%float, 200%float) |}.


(** The test cases generated for the first mock element (the login button:
    one test case, 'btn-test-0'), a failed execution of that test case, and
    a configuration with every probe switched off. *)
Definition buttonTests : list TestCase :=
  match generateTestCases (handleGenerateTests_config (take 1 mockElements) "playwright") with
  | Resolved testCases => testCases
  | Rejected _ => []
  end.

Definition failedExecution : TestExecution :=
  {| exec_id := "exec-1";
     exec_testCaseId := "btn-test-0";
     exec_status := failed;
     exec_duration := 1200;
     exec_error := Some "Timeout waiting for element to be visible";
     exec_screenshot := None;
     exec_timestamp := TimeValue 1700000000000 |}.

Definition probesOff : BugDetectionConfig :=
  {| enableVisualTesting := false;
     enablePerformanceTesting := false;
     enableAccessibilityTesting := false;
     thresholds := thresholds bugDetectionConfig |}.

(** The components' configuration with other thresholds. *)
Definition otherThresholds : BugDetectionConfig :=
  {| enableVisualTesting := true;
     enablePerformanceTesting := true;
     enableAccessibilityTesting := true;
     thresholds := {| loadTime := 1; visualDifference := 0.5; accessibilityScore := 10 |} |}.

(** A world whose clock starts at [start] and advances one millisecond per
    reading, and whose random numbers are all one half. *)
Definition worldAt (start : Z) : World :=
  {| clock := fun k => (start + Z.of_nat k)%Z;
     random := fun _ => 0.5%float;
     clockReads := 0;
     randomDraws := 0 |}.

(** The defect the performance probe reports, created at clock reading
    1000. *)
Definition performanceBug : Bug :=
  {| bug_id := "perf-bug-1";
     bug_title := "Slow page load time";
     bug_description := "Homepage takes more than 5 seconds to load";
     bug_severity := major;
     bug_status := open;
     bug_category := performance;
     bug_url := "https://example.com";
     bug_element := None;
     bug_screenshot := None;
     bug_steps :=
       [ "Navigate to homepage";
         "Measure load time";
         "Compare with performance threshold" ];
     bug_expectedResult := "Page should load within 3 seconds";
     bug_actualResult := "Page loads in 6.2 seconds";
     bug_testCaseId := None;
     bug_jiraTicket := None;
     bug_createdAt := TimeValue 1000;
     bug_updatedAt := TimeValue 1001;
     bug_assignee := None;
     bug_reporter := "Performance Testing Tool" |}.

(** A host that answers as a JavaScript engine does on the arguments the
    worlds above give rise to (the random number 0.5, the products 500 and
    5000, the clock readings from 1000 on), and with fixed values elsewhere. *)
Definition sampleHost : Host :=
  {| Number_toString := fun x radix =>
       if radix =? 36 then "0.i"
       else if PrimFloat.eqb x 5000 then "5000"
       else "500";
     Math_floor := fun x => x;
     Date_toISOString := fun ms =>
       if (ms =? 1000)%Z then "1970-01-01T00:00:01.000Z" else "1970-01-01T00:00:01.001Z";
     invalidTimeMessage := "Invalid time value";
     URL_parses := fun url => startsWith url "https://" |}.

End Examples.
Import Examples.

(** ** src/lib/scraper.ts: selectors *)

Module Selectors.

(** [s.split(' ')[0]]: the part of [s] before its first space. *)
Fixpoint beforeFirstSpace (s : string) : string :=
  match s with
  | EmptyString => EmptyString
  | String c r => if Ascii.eqb c " " then EmptyString else String c (beforeFirstSpace r)
  end.

Definition generateElementSelector (element : ScrapedElement) : string :=
  if truthy (el_attributes element !! "id")
  then "#" +:+ orElse (el_attributes element !! "id") ""
  else if truthy (el_attributes element !! "name")
  then "[name=" +:+ dq +:+ orElse (el_attributes element !! "name") "" +:+ dq +:+ "]"
  else if truthy (el_attributes element !! "class")
  then "." +:+ beforeFirstSpace (orElse (el_attributes element !! "class") "")
  else el_xpath element.

End Selectors.
Import Selectors.

(** ** src/lib/testGenerator.ts: downloads *)

Module Download.

(** [s.replace(/\s+/g, '-')]: every run of white space becomes one dash;
    [inRun] says that the character before was white space. *)
Fixpoint replaceWhiteSpaceRuns (inRun : bool) (s : string) : string :=
  match s with
  | EmptyString => EmptyString
  | String c r =>
      if isWhiteSpace c
      then (if inRun then replaceWhiteSpaceRuns true r
            else String "-" (replaceWhiteSpaceRuns true r))
      else String c (replaceWhiteSpaceRuns false r)
  end.

(** What [downloadTestCase] hands to the browser: the part and the type of
    the blob, and the name of the file. *)
Record FileDownload : Type := {
  download_part : Member;
  download_type : string;
  download_fileName : string
}.

Definition downloadTestCase (testCase : TestCase) : FileDownload :=
  let fileExtension := if String.eqb (tc_framework testCase) "selenium" then "py" else "js" in
  let fileName :=
    replaceWhiteSpaceRuns false (toLowerCase (tc_name testCase)) +:+ "." +:+ fileExtension in
  {| download_part := tc_code testCase;
     download_type := "text/plain";
     download_fileName := fileName |}.

End Download.
Import Download.

(** ** src/lib/bugDetector.ts: the mock executor and the badge colours *)

Module Executor.

(** [array[x]] for a number [x]: the index that [x] names, when [x] is a
    non-negative integer. *)
Definition arrayIndex (x : float) : option nat :=
  match Prim2SF x with
  | S754_zero _ => Some 0
  | S754_finite false m e =>
      if (0 <=? e)%Z then Some (Z.to_nat (Z.pos m * 2 ^ e))
      else if (Z.pos m mod 2 ^ (- e) =? 0)%Z then Some (Z.to_nat (Z.pos m / 2 ^ (- e)))
      else None
  | _ => None
  end.

Definition generateMockScreenshot : string :=
  "https://via.placeholder.com/800x600/ff0000/ffffff?text=Test+Failed".

Section WithHost.

Variable host : Host.

Definition generateMockError (testCase : TestCase) : Io (option string) :=
  let errors :=
    [ "Element not found: " +:+
        match head (tc_elements testCase) with Some id => id | None => "undefined" end;
      "Timeout waiting for element to be visible";
      "Assertion failed: Expected " +:+ dq +:+ "Success" +:+ dq +:+
        " but got " +:+ dq +:+ "Error" +:+ dq;
      "Network request failed with status 500";
      "Element is not clickable at this point" ] in
  r <- Math_random;;
  ret (match arrayIndex (Math_floor host (r * 5)%float) with
       | Some index => errors !! index
       | None => None
       end).

(** The body of the loop of [executeTests] for one test case.  Nothing in
    the [try] block throws, so the [catch] block is never entered. *)
Definition executeTests_body (testCase : TestCase) : Io TestExecution :=
  shouldFailDraw <- Math_random;;
  let shouldFail := PrimFloat.ltb shouldFailDraw 0x1.3333333333333p-2 (* 0.3 *) in
  now <- Date_now;;
  idDraw <- Math_random;;
  durationDraw <- Math_random;;
  timestamp <- new_Date;;
  error <- (if shouldFail then generateMockError testCase else ret None);;
  ret {| exec_id :=
           "exec-" +:+ decimalZ now +:+ "-" +:+ substr (Number_toString host idDraw 36) 2 9;
         exec_testCaseId := tc_id testCase;
         exec_status := if shouldFail then failed else passed;
         exec_duration := (Math_floor host (durationDraw * 5000) + 1000)%float;
         exec_error := error;
         exec_screenshot := if shouldFail then Some generateMockScreenshot else None;
         exec_timestamp := timestamp |}.

Fixpoint executeTests_loop (testCases : list TestCase) : Io (list TestExecution) :=
  match testCases with
  | [] => ret []
  | testCase :: rest =>
      execution <- executeTests_body testCase;;
      executions <- executeTests_loop rest;;
      ret (execution :: executions)
  end.

Definition executeTests (testCases : list TestCase) : Io (Promise (list TestExecution)) :=
  executions <- executeTests_loop testCases;;
  ret (Resolved executions).

End WithHost.

Definition bugStatusTag (s : BugStatus) : string :=
  match s with
  | open => "open"
  | in_progress => "in-progress"
  | resolved => "resolved"
  | closed => "closed"
  end.

(** The [switch] statements of the colour functions, on the run-time
    string. *)
Definition getBugSeverityColor_switch (severity : string) : string :=
  if String.eqb severity "critical" then "bg-red-100 text-red-800 border-red-200"
  else if String.eqb severity "major" then "bg-orange-100 text-orange-800 border-orange-200"
  else if String.eqb severity "minor" then "bg-yellow-100 text-yellow-800 border-yellow-200"
  else if String.eqb severity "trivial" then "bg-gray-100 text-gray-800 border-gray-200"
  else "bg-gray-100 text-gray-800 border-gray-200".

Definition getBugSeverityColor (severity : BugSeverity) : string :=
  getBugSeverityColor_switch (severityTag severity).

Definition getBugStatusColor_switch (status : string) : string :=
  if String.eqb status "open" then "bg-red-100 text-red-800"
  else if String.eqb status "in-progress" then "bg-blue-100 text-blue-800"
  else if String.eqb status "resolved" then "bg-green-100 text-green-800"
  else if String.eqb status "closed" then "bg-gray-100 text-gray-800"
  else "bg-gray-100 text-gray-800".

Definition getBugStatusColor (status : BugStatus) : string :=
  getBugStatusColor_switch (bugStatusTag status).

End Executor.
Import Executor.

(** ** The Jira integration library: the other calls *)

Module JiraCalls.

(** [Partial<CreateTicketRequest>]. *)
Record PartialCreateTicketRequest : Type := {
  update_summary : option string;
  update_description : option string;
  update_priority : option string;
  update_issueType : option string;
  update_projectKey : option string;
  update_assignee : option string;
  update_labels : option (list string)
}.

(** [new Date(ms)] for a number [ms]: the invalid date outside the range of
    time values. *)
Definition new_Date_of (ms : Z) : Date :=
  if (Z.abs ms <=? 8640000000000000)%Z then TimeValue ms else InvalidDate.

Section WithHost.

Variable host : Host.

Definition updateJiraTicket (ticketKey : string) (updates : PartialCreateTicketRequest)
    (config : JiraConfig) : Io (Promise JiraTicket) :=
  r <- Math_random;;
  now <- Date_now;;
  updated <- new_Date;;
  ret (Resolved
    {| ticket_id := numberText host (Math_floor host (r * 10000)%float);
       ticket_key := ticketKey;
       ticket_summary := orElse (update_summary updates) "Updated ticket";
       ticket_description := orElse (update_description updates) "Updated description";
       ticket_priority := orElse (update_priority updates) "Medium";
       ticket_status := "In Progress";
       ticket_assignee := None;
       ticket_reporter := email config;
       ticket_created := new_Date_of (now - 86400000);
       ticket_updated := updated;
       ticket_url := baseUrl config +:+ "/browse/" +:+ ticketKey |}).

Definition getJiraTicket (ticketKey : string) (config : JiraConfig) : Io (Promise JiraTicket) :=
  r <- Math_random;;
  now <- Date_now;;
  updated <- new_Date;;
  ret (Resolved
    {| ticket_id := numberText host (Math_floor host (r * 10000)%float);
       ticket_key := ticketKey;
       ticket_summary := "Sample Jira Ticket";
       ticket_description := "This is a sample ticket description";
       ticket_priority := "High";
       ticket_status := "Open";
       ticket_assignee := Some "john.doe@example.com";
       ticket_reporter := email config;
       ticket_created := new_Date_of (now - 86400000);
       ticket_updated := updated;
       ticket_url := baseUrl config +:+ "/browse/" +:+ ticketKey |}).

End WithHost.

(** [testJiraConnection]: the error thrown for a missing field is caught,
    logged, and answered with [false]; the promise always resolves. *)
Definition testJiraConnection (config : JiraConfig) : Promise bool :=
  if negb (truthy (Some (baseUrl config))) || negb (truthy (Some (email config))) ||
     negb (truthy (Some (apiToken config)))
  then Resolved false
  else Resolved true.

Definition getJiraPriorityColor (priority : string) : string :=
  let lowered := toLowerCase priority in
  if String.eqb lowered "blocker" then "bg-red-100 text-red-800"
  else if String.eqb lowered "high" then "bg-orange-100 text-orange-800"
  else if String.eqb lowered "medium" then "bg-yellow-100 text-yellow-800"
  else if String.eqb lowered "low" then "bg-green-100 text-green-800"
  else "bg-gray-100 text-gray-800".

End JiraCalls.
Import JiraCalls.

(** ** The components: test runs, bug filters, ticket creation, charts *)

Module Panels.

(** *** BugDetectionLogs *)

Section WithHost.

Variable host : Host.

(** [handleRunTests]: the executions and the bugs it stores, or nothing when
    there is no test case. *)
Definition handleRunTests (testCases : list TestCase) :
    Io (option (list TestExecution * list Bug)) :=
  if length testCases =? 0 then ret None
  else
    executed <- executeTests host testCases;;
    match executed with
    | Rejected _ => ret None
    | Resolved testExecutions =>
        detected <- detectBugs host testExecutions testCases bugDetectionConfig;;
        match detected with
        | Rejected _ => ret None
        | Resolved detectedBugs => ret (Some (testExecutions, detectedBugs))
        end
    end.

End WithHost.

Definition filteredBugs (bugs : list Bug) (filterSeverity filterStatus : string) : list Bug :=
  List.filter
    (fun bug =>
       if negb (String.eqb filterSeverity "all") &&
          negb (String.eqb (severityTag (bug_severity bug)) filterSeverity)
       then false
       else if negb (String.eqb filterStatus "all") &&
               negb (String.eqb (bugStatusTag (bug_status bug)) filterStatus)
       then false
       else true)
    bugs.

Record ExecutionStats : Type := {
  stats_total : nat;
  stats_passed : nat;
  stats_failed : nat;
  stats_skipped : nat
}.

Definition getExecutionStats (executions : list TestExecution) : ExecutionStats :=
  {| stats_total := length executions;
     stats_passed := length (filter (fun e => exec_status e = passed) executions);
     stats_failed := length (filter (fun e => exec_status e = failed) executions);
     stats_skipped := length (filter (fun e => exec_status e = skipped) executions) |}.

(** *** JiraIntegration

    The bugs of the panel are objects shared with the other components:
    [handleCreateTicket] writes the ticket key into the bug object itself.
    The objects live in a store, and the [bugs] array holds references. *)

Record PanelState : Type := {
  store : gmap nat Bug;
  tickets : list JiraTicket
}.

(** [bug.jiraTicket = key]. *)
Definition setJiraTicket (key : string) (bug : Bug) : Bug :=
  {| bug_id := bug_id bug;
     bug_title := bug_title bug;
     bug_description := bug_description bug;
     bug_severity := bug_severity bug;
     bug_status := bug_status bug;
     bug_category := bug_category bug;
     bug_url := bug_url bug;
     bug_element := bug_element bug;
     bug_screenshot := bug_screenshot bug;
     bug_steps := bug_steps bug;
     bug_expectedResult := bug_expectedResult bug;
     bug_actualResult := bug_actualResult bug;
     bug_testCaseId := bug_testCaseId bug;
     bug_jiraTicket := Some key;
     bug_createdAt := bug_createdAt bug;
     bug_updatedAt := bug_updatedAt bug;
     bug_assignee := bug_assignee bug;
     bug_reporter := bug_reporter bug |}.

Section WithHostAndConfig.

Variable host : Host.
Variable config : JiraConfig.

(** [handleCreateTicket(bug)] for the bug object at [ref]; a rejected call
    is logged and changes nothing. *)
Definition handleCreateTicket (ref : nat) (state : PanelState) : Io PanelState :=
  match store state !! ref with
  | None => ret state
  | Some bug =>
      created <- createJiraTicket host bug config;;
      match created with
      | Resolved ticket =>
          ret {| store := <[ref := setJiraTicket (ticket_key ticket) bug]> (store state);
                 tickets := tickets state ++ [ticket] |}
      | Rejected _ => ret state
      end
  end.

Fixpoint handleBulkCreateTickets_loop (bugsWithoutTickets : list nat) (state : PanelState) :
    Io PanelState :=
  match bugsWithoutTickets with
  | [] => ret state
  | ref :: rest =>
      state' <- handleCreateTicket ref state;;
      handleBulkCreateTickets_loop rest state'
  end.

Definition handleBulkCreateTickets (bugs : list nat) (state : PanelState) : Io PanelState :=
  let bugsWithoutTickets :=
    List.filter
      (fun ref =>
         match store state !! ref with
         | Some bug => negb (truthy (bug_jiraTicket bug))
         | None => false
         end)
      bugs in
  handleBulkCreateTickets_loop bugsWithoutTickets state.

End WithHostAndConfig.

(** *** ReportingDashboard: the chart data *)

Record SeveritySlice : Type := {
  slice_name : string;
  slice_value : nat;
  slice_color : string
}.

Definition severityData (bugs : list Bug) : list SeveritySlice :=
  List.filter (fun item => 0 <? slice_value item)
    [ {| slice_name := "Critical"; slice_value := criticalBugs bugs; slice_color := "#ef4444" |};
      {| slice_name := "Major"; slice_value := majorBugs bugs; slice_color := "#f97316" |};
      {| slice_name := "Minor"; slice_value := minorBugs bugs; slice_color := "#eab308" |};
      {| slice_name := "Trivial";
         slice_value := length (filter (fun bug => bug_severity bug = trivial) bugs);
         slice_color := "#6b7280" |} ].

Record CategoryBar : Type := {
  bar_name : string;
  bar_count : nat
}.

Definition categoryData (bugs : list Bug) : list CategoryBar :=
  List.filter (fun item => 0 <? bar_count item)
    [ {| bar_name := "Functional";
         bar_count := length (filter (fun bug => bug_category bug = BugDetector.functional) bugs) |};
      {| bar_name := "UI";
         bar_count := length (filter (fun bug => bug_category bug = BugDetector.ui) bugs) |};
      {| bar_name := "Performance";
         bar_count := length (filter (fun bug => bug_category bug = performance) bugs) |};
      {| bar_name := "Security";
         bar_count := length (filter (fun bug => bug_category bug = security) bugs) |};
      {| bar_name := "Usability";
         bar_count := length (filter (fun bug => bug_category bug = usability) bugs) |} ].

(** *** TestCaseManager: the badge colours *)

Definition getPriorityColor (priority : string) : string :=
  if String.eqb priority "high" then "bg-red-100 text-red-800"
  else if String.eqb priority "medium" then "bg-yellow-100 text-yellow-800"
  else if String.eqb priority "low" then "bg-green-100 text-green-800"
  else "bg-gray-100 text-gray-800".

Definition getCategoryColor (category : string) : string :=
  if String.eqb category "functional" then "bg-blue-100 text-blue-800"
  else if String.eqb category "ui" then "bg-purple-100 text-purple-800"
  else if String.eqb category "integration" then "bg-orange-100 text-orange-800"
  else "bg-gray-100 text-gray-800".

End Panels.
Import Panels.

(** ** Notions used to state the further properties *)

Module Notions.

(** The statement that opens [url] in each framework. *)
Definition visitStatement (framework url : string) : option string :=
  if String.eqb framework "playwright" then Some ("await page.goto('" +:+ url +:+ "');")
  else if String.eqb framework "selenium" then Some ("driver.get('" +:+ url +:+ "')")
  else if String.eqb framework "cypress" then Some ("cy.visit('" +:+ url +:+ "');")
  else None.

(** The body of [tc] opens [url]. *)
Definition visits (tc : TestCase) (url : string) : bool :=
  match tc_code tc, visitStatement (tc_framework tc) url with
  | OwnValue body, Some statement => includes body statement
  | _, _ => false
  end.

(** The characters of a string. *)
Fixpoint characters (s : string) : list ascii :=
  match s with
  | EmptyString => []
  | String c r => c :: characters r
  end.

(** An upper-case letter of ASCII. *)
Definition isUpperCase (c : ascii) : bool :=
  let n := Ascii.nat_of_ascii c in (65 <=? n) && (n <=? 90).

(** The bug carries a ticket reference: [bug.jiraTicket] is truthy. *)
Definition hasTicket (bug : Bug) : bool := truthy (bug_jiraTicket bug).

(** The creation date of the bug is a valid date. *)
Definition dated (bug : Bug) : bool :=
  match bug_createdAt bug with
  | TimeValue _ => true
  | InvalidDate => false
  end.

(** The bug object at [ref] has no ticket reference and a valid creation
    date. *)
Definition needsTicket (state : PanelState) (ref : nat) : bool :=
  match store state !! ref with
  | Some bug => negb (hasTicket bug) && dated bug
  | None => false
  end.

End Notions.
Import Notions.

(** ** Further sample inputs *)

Module MoreExamples.

(** A world whose random numbers are all zero. *)
Definition zeroDrawWorld : World :=
  {| clock := fun k => (5000 + Z.of_nat k)%Z;
     random := fun _ => 0%float;
     clockReads := 0;
     randomDraws := 0 |}.

(** The test case generated for the login button. *)
Definition loginTest : TestCase :=
  generateButtonTest loginButton "playwright" "https://example.com" 0.

End MoreExamples.
Import MoreExamples.

(** * Properties *)

(** ** Strings *)

Lemma append_nil (b : string) : EmptyString +:+ b = b.
Proof. reflexivity. Qed.

Lemma append_cons (x : ascii) (a b : string) : String x a +:+ b = String x (a +:+ b).
Proof. reflexivity. Qed.

Ltac push_append := rewrite ?append_nil, ?append_cons in *.

Lemma append_assoc (a b c : string) : (a +:+ b) +:+ c = a +:+ (b +:+ c).
Proof. induction a as [|x a IH]; push_append; congruence. Qed.

Lemma toLowerCase_append (a b : string) :
  toLowerCase (a +:+ b) = toLowerCase a +:+ toLowerCase b.
Proof. induction a as [|x a IH]; simpl; push_append; simpl; congruence. Qed.

(** A split of the lower-cased text is the image of a split of the text. *)
Lemma toLowerCase_split (t a b : string) :
  toLowerCase t = a +:+ b ->
  exists ta tb, t = ta +:+ tb /\ toLowerCase ta = a /\ toLowerCase tb = b.
Proof.
  revert t. induction a as [|x a IH]; intros t H.
  - exists EmptyString, t. auto.
  - destruct t as [|y t]; push_append; simpl in H; [discriminate|].
    injection H as Hx Ht. destruct (IH t Ht) as (ta & tb & -> & <- & <-).
    exists (String y ta), tb. simpl. now rewrite Hx.
Qed.

Lemma startsWith_spec (s p : string) :
  startsWith s p = true <-> exists rest, s = p +:+ rest.
Proof.
  revert s. induction p as [|x p IH]; intros s; simpl.
  - split; [intros _; now exists s | reflexivity].
  - destruct s as [|y s].
    + split; [discriminate | intros [rest H]; discriminate].
    + destruct (Ascii.eqb_spec x y) as [->|Hne]; simpl.
      * rewrite IH. split; intros [rest H]; exists rest; push_append; congruence.
      * split; [discriminate | intros [rest H]; push_append; congruence].
Qed.

Lemma includes_spec (s p : string) :
  includes s p = true <-> exists before after, s = before +:+ p +:+ after.
Proof.
  induction s as [|c s IH]; simpl.
  - rewrite startsWith_spec. split.
    + intros [rest H]. now exists EmptyString, rest.
    + intros (before & after & H). destruct before; [now exists after | discriminate].
  - rewrite orb_true_iff, startsWith_spec, IH. split.
    + intros [[rest H] | (before & after & H)].
      * now exists EmptyString, rest.
      * exists (String c before), after. push_append. now rewrite H.
    + intros (before & after & H). destruct before as [|b before]; push_append.
      * left. now exists after.
      * right. exists before, after. congruence.
Qed.

Lemma mentions_includes (keyword text : string) :
  mentions keyword text <-> includes (toLowerCase text) keyword = true.
Proof.
  rewrite includes_spec. split.
  - intros (before & matched & after & -> & <-).
    exists (toLowerCase before), (toLowerCase after).
    now rewrite !toLowerCase_append.
  - intros (b & a & H).
    destruct (toLowerCase_split _ _ _ H) as (before & rest & -> & <- & Hrest).
    destruct (toLowerCase_split _ _ _ Hrest) as (matched & after & -> & <- & <-).
    now exists before, matched, after.
Qed.

(** ** The classifier's severity *)

Lemma priorityTag_high (p : Priority) :
  String.eqb (priorityTag p) "high" = if decide (p = high) then true else false.
Proof. now destruct p. Qed.

Lemma determineBugSeverity_rules (text : string) (p : Priority) :
  severityRules text p (determineBugSeverity text (priorityTag p)).
Proof.
  unfold severityRules, determineBugSeverity. rewrite !mentions_includes.
  rewrite priorityTag_high.
  destruct (includes (toLowerCase text) "timeout");
    destruct (includes (toLowerCase text) "not found");
    destruct (includes (toLowerCase text) "assertion");
    destruct (includes (toLowerCase text) "expected");
    destruct (decide (p = high)); simpl; intuition congruence.
Qed.

Lemma createBugFromFailedTest_severity host execution testCase config w :
  bug_severity (valueIn w (createBugFromFailedTest host execution testCase config)) =
  determineBugSeverity (orElse (exec_error execution) "") (priorityTag (tc_priority testCase)).
Proof. reflexivity. Qed.

Lemma severity_of_created_bug host execution testCase config w :
  severityFromError (exec_error execution) (tc_priority testCase)
    (bug_severity (valueIn w (createBugFromFailedTest host execution testCase config))).
Proof.
  rewrite createBugFromFailedTest_severity. unfold severityFromError.
  destruct (exec_error execution) as [[|c text]|]; simpl.
  - apply determineBugSeverity_rules.
  - apply determineBugSeverity_rules.
  - reflexivity.
Qed.

(** ** Computations in a world *)

Lemma bind_run {A B : Type} (m : Io A) (k : A -> Io B) (w : World) :
  bind m k w = k (fst (m w)) (snd (m w)).
Proof. unfold bind. now destruct (m w). Qed.

Lemma omap_filter {A B : Type} (P : A -> Prop) `{!forall x, Decision (P x)}
    (f : A -> option B) (l : list A) :
  omap f (filter P l) = omap (fun x => if decide (P x) then f x else None) l.
Proof.
  induction l as [|x l IH]; [reflexivity|].
  rewrite filter_cons. cbn [omap list_omap].
  destruct (decide (P x)); cbn [omap list_omap]; now rewrite IH.
Qed.

(** The bugs of the loop answer, one for one and in order, the failed
    executions whose test case is found. *)
Lemma detectBugs_loop_created host testCases config failedExecutions w :
  Forall2
    (fun (failure : TestExecution * TestCase) bug =>
       exists w', bug = valueIn w' (createBugFromFailedTest host failure.1 failure.2 config))
    (omap (fun execution =>
             option_map (pair execution)
               (List.find (fun tc => String.eqb (tc_id tc) (exec_testCaseId execution)) testCases))
          failedExecutions)
    (fst (detectBugs_loop host failedExecutions testCases config w)).
Proof.
  revert w.
  induction failedExecutions as [|execution rest IH]; intros w; simpl.
  - constructor.
  - destruct (List.find _ testCases) as [testCase|]; simpl.
    + rewrite !bind_run. simpl. constructor; [|apply IH]. now exists w.
    + apply IH.
Qed.

Lemma detectBugs_value host executions testCases config w :
  exists probeBugs,
    valueIn w (detectBugs host executions testCases config) =
    Resolved
      (fst (detectBugs_loop host (filter (fun exec => exec_status exec = failed) executions)
              testCases config w) ++ probeBugs).
Proof.
  unfold detectBugs, valueIn. rewrite !bind_run. simpl. eexists. reflexivity.
Qed.

(** C1.  The severity of the defect created for a failed execution result
    follows the three rules: critical when the error text contains "timeout"
    or "not found" in any letter case; otherwise, when it contains
    "assertion" or "expected", major for a high-priority specification and
    minor for any other; minor for every other text and for an absent error.
    The defects [detectBugs] returns start with one such defect for each
    failed result whose specification resolves.  In particular "Timeout
    waiting for element" against a high-priority specification gives
    critical, and "Assertion failed: expected X" against a medium-priority
    specification gives minor. *)
Theorem failed_result_severity :
  (forall host executions testCases config w,
     exists failureBugs probeBugs,
       valueIn w (detectBugs host executions testCases config) =
         Resolved (failureBugs ++ probeBugs) /\
       Forall2
         (fun (failure : TestExecution * TestCase) bug =>
            severityFromError (exec_error failure.1) (tc_priority failure.2) (bug_severity bug))
         (resolvedFailures executions testCases) failureBugs) /\
  (forall host execution testCase config w,
     severityFromError (exec_error execution) (tc_priority testCase)
       (bug_severity (valueIn w (createBugFromFailedTest host execution testCase config)))) /\
  (forall host execution testCase config w,
     exec_error execution = Some "Timeout waiting for element" ->
     tc_priority testCase = high ->
     bug_severity (valueIn w (createBugFromFailedTest host execution testCase config)) = critical) /\
  (forall host execution testCase config w,
     exec_error execution = Some "Assertion failed: expected X" ->
     tc_priority testCase = medium ->
     bug_severity (valueIn w (createBugFromFailedTest host execution testCase config)) = minor).
Proof.
  split; [|split; [|split]].
  - intros host executions testCases config w.
    destruct (detectBugs_value host executions testCases config w) as [probeBugs ->].
    eexists _, probeBugs. split; [reflexivity|].
    unfold resolvedFailures. rewrite <- omap_filter.
    eapply Forall2_impl; [apply detectBugs_loop_created|].
    intros [execution testCase] bug [w' ->]. apply severity_of_created_bug.
  - intros. apply severity_of_created_bug.
  - intros host execution testCase config w He Hp.
    rewrite createBugFromFailedTest_severity, He, Hp. reflexivity.
  - intros host execution testCase config w He Hp.
    rewrite createBugFromFailedTest_severity, He, Hp. reflexivity.
Qed.

(** ** Ticket priority *)

(** C7.  [mapBugSeverityToJiraPriority] sends critical to Blocker, major to
    High, minor to Medium and trivial to Low; each of the four severities is
    matched by a case of its own, so the default arm is never the one taken,
    and different severities get different priorities. *)
Theorem mapPriority_total :
  mapBugSeverityToJiraPriority critical = "Blocker" /\
  mapBugSeverityToJiraPriority major = "High" /\
  mapBugSeverityToJiraPriority minor = "Medium" /\
  mapBugSeverityToJiraPriority trivial = "Low" /\
  (forall severity : BugSeverity,
     severityTag severity ∈ ["critical"; "major"; "minor"; "trivial"]) /\
  (forall s1 s2 : BugSeverity,
     mapBugSeverityToJiraPriority s1 = mapBugSeverityToJiraPriority s2 -> s1 = s2).
Proof.
  repeat split.
  - intros []; simpl; set_solver.
  - intros [] []; simpl; intros H; (reflexivity || discriminate H).
Qed.

(** ** The pass rate *)

Lemma Math_max_zero (x : float) : Math_max 0 x = clampAtZero x.
Proof.
  unfold Math_max, clampAtZero, PrimFloat.is_nan.
  change (PrimFloat.is_zero 0 && PrimFloat.get_sign 0) with false.
  rewrite !FloatAxioms.eqb_spec, !FloatAxioms.ltb_spec, FloatAxioms.leb_spec.
  change (Prim2SF 0) with (S754_zero false).
  destruct (Prim2SF x) as [s|s| |s m e] eqn:E.
  - reflexivity.
  - destruct s; reflexivity.
  - cbn. rewrite <- (SF2Prim_Prim2SF x), E. reflexivity.
  - unfold SFeqb, SFltb, SFleb. cbn [SFcompare].
    rewrite Z.compare_refl.
    change (PosDef.Pos.compare_cont Eq m m) with (Pos.compare m m).
    rewrite Pos.compare_refl. destruct s; reflexivity.
Qed.

Lemma clampAtZero_not_negative (x : float) : PrimFloat.ltb (clampAtZero x) 0 = false.
Proof.
  unfold clampAtZero. destruct (PrimFloat.leb x 0) eqn:Hle; [reflexivity|].
  rewrite FloatAxioms.leb_spec in Hle. rewrite FloatAxioms.ltb_spec.
  unfold SFleb in Hle. unfold SFltb.
  destruct (SFcompare (Prim2SF x) (Prim2SF 0)) as [[]|]; try reflexivity; discriminate.
Qed.

(** C8, as amended.  The pass rate the dashboard computes is the estimate
    max(0, 100 - (totalBugs / totalTests) * 100) when there is a test case,
    and 0 when there is none; it is never negative.  The summary of the
    report and the pass rate card do not carry this number but
    [Math.round] of it.  Ten test cases and three bugs give 70, rounded or
    not; two test cases and five bugs give 0; three test cases and one bug
    give 66.66..., and 67 in the summary. *)
Theorem passRate_estimate (bugs : list Bug) (testCases : list TestCase) :
  passRate bugs testCases = passRateEstimate (totalBugs bugs) (totalTests testCases) /\
  PrimFloat.ltb (passRate bugs testCases) 0 = false /\
  summary_passRate (handleExportReport_summary bugs testCases) =
    Math_round (passRateEstimate (totalBugs bugs) (totalTests testCases)) /\
  displayedPassRate bugs testCases =
    Math_round (passRateEstimate (totalBugs bugs) (totalTests testCases)) /\
  (totalTests testCases = 0 ->
   passRate bugs testCases = 0%float /\
   summary_passRate (handleExportReport_summary bugs testCases) = 0%float) /\
  (totalTests testCases = 10 -> totalBugs bugs = 3 ->
   passRate bugs testCases = 70%float /\
   summary_passRate (handleExportReport_summary bugs testCases) = 70%float) /\
  (totalTests testCases = 2 -> totalBugs bugs = 5 ->
   passRate bugs testCases = 0%float /\
   summary_passRate (handleExportReport_summary bugs testCases) = 0%float) /\
  (totalTests testCases = 3 -> totalBugs bugs = 1 ->
   passRate bugs testCases = 0x1.0aaaaaaaaaaabp+6%float /\
   summary_passRate (handleExportReport_summary bugs testCases) = 67%float).
Proof.
  assert (Hrate : passRate bugs testCases =
                  passRateEstimate (totalBugs bugs) (totalTests testCases)).
  { unfold passRate, passRateEstimate.
    destruct (0 <? totalTests testCases); [apply Math_max_zero | reflexivity]. }
  unfold displayedPassRate, handleExportReport_summary. cbn [summary_passRate].
  rewrite Hrate. split; [reflexivity|]. split.
  - unfold passRateEstimate. destruct (0 <? totalTests testCases); [|reflexivity].
    apply clampAtZero_not_negative.
  - split; [reflexivity|]. split; [reflexivity|]. split; [|split; [|split]].
    + intros ->. split; reflexivity.
    + intros -> ->. split; reflexivity.
    + intros -> ->. split; reflexivity.
    + intros -> ->. split; reflexivity.
Qed.

(** One bug over three test cases: the estimate is 66.666..., the summary of
    the report holds 67. *)
Lemma summary_passRate_rounded :
  totalBugs [performanceBug] = 1 /\
  totalTests [loginTest; loginTest; loginTest] = 3 /\
  passRateEstimate 1 3 = 0x1.0aaaaaaaaaaabp+6%float /\
  PrimFloat.eqb (passRateEstimate 1 3) 67 = false /\
  summary_passRate
    (handleExportReport_summary [performanceBug] [loginTest; loginTest; loginTest]) =
  67%float.
Proof. repeat split. Qed.

(** ** Test synthesis *)

Lemma codeMapOf_supported (playwrightCode seleniumCode cypressCode framework : string) :
  isTestFramework framework ->
  exists text,
    getProperty (codeMapOf playwrightCode seleniumCode cypressCode) framework = OwnValue text.
Proof. intros [-> | [-> | ->]]; vm_compute; eauto. Qed.

Lemma codeMapOf_unsupported (playwrightCode seleniumCode cypressCode framework : string) :
  ~ isTestFramework framework ->
  getProperty (codeMapOf playwrightCode seleniumCode cypressCode) framework =
  if bool_decide (framework ∈ objectPrototypeKeys) then InheritedMember framework else Undefined.
Proof.
  unfold isTestFramework, getProperty, codeMapOf. intros H.
  rewrite !lookup_insert_ne by (intros <-; tauto).
  rewrite lookup_singleton_ne by (intros <-; tauto). reflexivity.
Qed.

Lemma prefixed_id_differs (c1 c2 : ascii) (r1 r2 suffix : string) :
  c1 <> c2 -> String c1 r1 +:+ suffix <> String c2 r2.
Proof. intros Hne H. rewrite append_cons in H. congruence. Qed.

(** What the callback pushes for one element. *)
Lemma callback_member config element index tc :
  tc ∈ generateTestCases_callback config element index ->
  tc_elements tc = [el_id element] /\
  tc_framework tc = cfg_framework config /\
  ~ isWorkflowSpecification tc /\
  exists playwrightCode seleniumCode cypressCode,
    tc_code tc = getProperty (codeMapOf playwrightCode seleniumCode cypressCode) (cfg_framework config).
Proof.
  unfold generateTestCases_callback, isWorkflowSpecification.
  destruct (el_type element); [| destruct (cfg_includeNegativeTests config) | | | |];
    rewrite ?elem_of_cons, ?elem_of_nil; intros H;
    repeat match goal with H : _ \/ _ |- _ => destruct H as [H | H] end;
    try contradiction; subst tc;
    (split; [reflexivity | split; [reflexivity | split;
       [apply prefixed_id_differs; discriminate | eauto]]]).
Qed.

Lemma forEach_member config index elements tc :
  tc ∈ generateTestCases_forEach config index elements ->
  exists element i, element ∈ elements /\ tc ∈ generateTestCases_callback config element i.
Proof.
  revert index. induction elements as [|element rest IH]; intros index; simpl.
  - now rewrite elem_of_nil.
  - rewrite elem_of_app. intros [H | H].
    + exists element, index. split; [left | assumption].
    + destruct (IH _ H) as (e & i & He & Hi). exists e, i. split; [now right | assumption].
Qed.

Lemma filter_none {A : Type} (P : A -> Prop) `{!forall x, Decision (P x)} (l : list A) :
  (forall x, x ∈ l -> ~ P x) -> filter P l = [].
Proof.
  induction l as [|x l IH]; intros Hall; [reflexivity|].
  rewrite filter_cons. destruct (decide (P x)) as [HP|_].
  - exfalso. apply (Hall x); [left | assumption].
  - apply IH. intros y Hy. apply Hall. now right.
Qed.

Lemma forEach_no_workflow config index elements :
  filter isWorkflowSpecification (generateTestCases_forEach config index elements) = [].
Proof.
  apply filter_none. intros tc H.
  destruct (forEach_member _ _ _ _ H) as (element & i & _ & Hi).
  now apply callback_member in Hi.
Qed.

Lemma some_form_iff (elements : list ScrapedElement) :
  (0 <? length (filter (fun el => el_type el = form) elements)) = true <->
  exists element, element ∈ elements /\ el_type element = form.
Proof.
  rewrite Nat.ltb_lt. split.
  - destruct (filter _ elements) as [|element rest] eqn:E; simpl; [lia|]. intros _.
    assert (H : element ∈ filter (fun el => el_type el = form) elements)
      by (rewrite E; left).
    apply list_elem_of_filter in H. exists element. tauto.
  - intros (element & Hin & Hform).
    assert (H : element ∈ filter (fun el => el_type el = form) elements)
      by (apply list_elem_of_filter; tauto).
    destruct (filter _ elements); [now apply elem_of_nil in H | simpl; lia].
Qed.

Lemma generateTestCases_value (config : GenerateTestsConfig) :
  generateTestCases config =
  Resolved
    (generateTestCases_forEach config 0 (cfg_elements config) ++
     if 0 <? length (filter (fun el => el_type el = form) (cfg_elements config))
     then [generateWorkflowTest (cfg_elements config) (cfg_framework config) (cfg_baseUrl config)]
     else []).
Proof.
  unfold generateTestCases. destruct (0 <? _); [reflexivity | now rewrite app_nil_r].
Qed.

(** C2.  When the input holds a form element, the result is the per-element
    specifications followed by one more, the workflow specification; it is
    the only workflow specification of the result, its category is
    integration, its priority high, and it covers the ids of all input
    elements.  When the input holds no form element the result is the
    per-element specifications alone and holds no workflow specification. *)
Theorem workflow_specification (config : GenerateTestsConfig) :
  ((exists element, element ∈ cfg_elements config /\ el_type element = form) ->
   exists workflow,
     generateTestCases config =
       Resolved (generateTestCases_forEach config 0 (cfg_elements config) ++ [workflow]) /\
     filter isWorkflowSpecification
       (generateTestCases_forEach config 0 (cfg_elements config) ++ [workflow]) = [workflow] /\
     tc_category workflow = integration /\
     tc_priority workflow = high /\
     tc_elements workflow = map el_id (cfg_elements config)) /\
  ((forall element, element ∈ cfg_elements config -> el_type element <> form) ->
   generateTestCases config =
     Resolved (generateTestCases_forEach config 0 (cfg_elements config)) /\
   filter isWorkflowSpecification
     (generateTestCases_forEach config 0 (cfg_elements config)) = []).
Proof.
  rewrite generateTestCases_value. split.
  - intros Hform. apply some_form_iff in Hform. rewrite Hform.
    eexists. split; [reflexivity|].
    rewrite filter_app, forEach_no_workflow. repeat split.
  - intros Hnone.
    destruct (0 <? _) eqn:E.
    + apply some_form_iff in E. destruct E as (element & Hin & Hform).
      now destruct (Hnone element Hin).
    + rewrite app_nil_r. split; [reflexivity | apply forEach_no_workflow].
Qed.

(** C6.  Every specification [generateTestCases] returns covers at least one
    element, covers only ids of input elements, and carries the framework of
    the configuration. *)
Theorem specification_invariant config testCases tc :
  generateTestCases config = Resolved testCases ->
  tc ∈ testCases ->
  tc_elements tc <> [] /\
  (forall id, id ∈ tc_elements tc ->
     exists element, element ∈ cfg_elements config /\ el_id element = id) /\
  tc_framework tc = cfg_framework config.
Proof.
  rewrite generateTestCases_value. intros [= <-]. rewrite elem_of_app. intros [H | H].
  - destruct (forEach_member _ _ _ _ H) as (element & i & Hin & Hi).
    apply callback_member in Hi. destruct Hi as (He & Hf & _).
    rewrite He. split; [discriminate | split; [|assumption]].
    intros id Hid. apply list_elem_of_singleton in Hid. subst id. now exists element.
  - destruct (0 <? _) eqn:E; [|now apply elem_of_nil in H].
    apply list_elem_of_singleton in H. subst tc. simpl.
    apply some_form_iff in E. destruct E as (element & Hin & _).
    split; [|split; [|reflexivity]].
    + destruct (cfg_elements config); [now apply elem_of_nil in Hin | discriminate].
    + intros id Hid. apply list_elem_of_fmap in Hid. destruct Hid as (e & -> & He). now exists e.
Qed.

Lemma specification_invariant_witness :
  tc_elements (generateWorkflowTest mockElements "playwright" "https://example.com") <> [] /\
  (forall id,
     id ∈ tc_elements (generateWorkflowTest mockElements "playwright" "https://example.com") ->
     exists element,
       element ∈ cfg_elements (handleGenerateTests_config mockElements "playwright") /\
       el_id element = id) /\
  tc_framework (generateWorkflowTest mockElements "playwright" "https://example.com") =
  cfg_framework (handleGenerateTests_config mockElements "playwright").
Proof.
  refine (specification_invariant (handleGenerateTests_config mockElements "playwright") _ _ _ _).
  - apply generateTestCases_value.
  - apply elem_of_app. right. vm_compute. left.
Defined.

(** C4, as amended.  [generateTestCases] resolves to the empty list on an
    empty element list, and it resolves for every configuration: with a
    framework value outside playwright, selenium and cypress it still returns
    its specifications, each carrying that framework value and no template
    text as its code.  The code is then what [codeMap[framework]] finds
    without an own property: [undefined], or, for a framework value that
    names a member of [Object.prototype], that member.  With a framework
    value among the three every specification has its template text. *)
Theorem synthesis_failure_modes :
  (forall framework baseUrl includeValidation includeNegativeTests,
     generateTestCases
       {| cfg_elements := [];
          cfg_framework := framework;
          cfg_baseUrl := baseUrl;
          cfg_includeValidation := includeValidation;
          cfg_includeNegativeTests := includeNegativeTests |} = Resolved []) /\
  (forall config,
     exists testCases,
       generateTestCases config = Resolved testCases /\
       (~ isTestFramework (cfg_framework config) ->
        forall tc, tc ∈ testCases ->
          tc_framework tc = cfg_framework config /\
          (forall text, tc_code tc <> OwnValue text) /\
          (cfg_framework config ∉ objectPrototypeKeys -> tc_code tc = Undefined) /\
          (cfg_framework config ∈ objectPrototypeKeys ->
           tc_code tc = InheritedMember (cfg_framework config))) /\
       (isTestFramework (cfg_framework config) ->
        forall tc, tc ∈ testCases ->
          tc_framework tc = cfg_framework config /\
          exists text, tc_code tc = OwnValue text)).
Proof.
  split; [reflexivity|]. intros config. eexists. split; [apply generateTestCases_value|].
  assert (Hmember : forall tc,
    tc ∈ generateTestCases_forEach config 0 (cfg_elements config) ++
         (if 0 <? length (filter (fun el => el_type el = form) (cfg_elements config))
          then [generateWorkflowTest (cfg_elements config) (cfg_framework config)
                  (cfg_baseUrl config)]
          else []) ->
    tc_framework tc = cfg_framework config /\
    exists playwrightCode seleniumCode cypressCode,
      tc_code tc =
      getProperty (codeMapOf playwrightCode seleniumCode cypressCode) (cfg_framework config)).
  { intros tc. rewrite elem_of_app. intros [H | H].
    - destruct (forEach_member _ _ _ _ H) as (element & i & _ & Hi).
      apply callback_member in Hi. tauto.
    - destruct (0 <? _); [|now apply elem_of_nil in H].
      apply list_elem_of_singleton in H. subst tc. split; [reflexivity | simpl; eauto]. }
  split; intros Hfw tc Htc; destruct (Hmember tc Htc) as (Hf & pw & se & cy & Hcode);
    (split; [assumption|]); rewrite Hcode.
  - rewrite codeMapOf_unsupported by assumption.
    case_bool_decide as Hkey; repeat split; intros; try discriminate; try reflexivity; tauto.
  - now apply codeMapOf_supported.
Qed.

Lemma unsupported_framework_resolves :
  ~ isTestFramework "puppeteer" /\
  generateTestCases (handleGenerateTests_config (take 1 mockElements) "puppeteer") =
  Resolved
    [ {| tc_id := "btn-test-0";
         tc_name := "Button Click Test - Login";
         tc_description := "Test clicking the Login element";
         tc_framework := "puppeteer";
         tc_code := Undefined;
         tc_elements := ["1"];
         tc_priority := high;
         tc_category := TestGenerator.functional |} ].
Proof.
  split; [unfold isTestFramework; intuition discriminate | vm_compute; reflexivity].
Qed.

(** The framework value 'constructor' is no framework either, and the call
    resolves too: the code of its specification is the member of that name
    which the object literal inherits. *)
Lemma inherited_member_as_code :
  ~ isTestFramework "constructor" /\
  exists tc,
    generateTestCases (handleGenerateTests_config (take 1 mockElements) "constructor") =
      Resolved [tc] /\
    tc_code tc = InheritedMember "constructor".
Proof.
  split; [unfold isTestFramework; intuition discriminate|].
  eexists. split; vm_compute; reflexivity.
Qed.

(** ** Link specifications *)

Lemma includes_trans (a b c : string) :
  includes a b = true -> includes b c = true -> includes a c = true.
Proof.
  rewrite !includes_spec. intros (b1 & a1 & ->) (b2 & a2 & ->).
  exists (b1 +:+ b2), (a2 +:+ a1). now rewrite !append_assoc.
Qed.

Lemma unlines_cons (line : string) (lines : list string) :
  lines <> [] -> unlines (line :: lines) = line +:+ nl +:+ unlines lines.
Proof. now destruct lines. Qed.

Lemma append_empty (a : string) : a +:+ EmptyString = a.
Proof. induction a as [|x a IH]; push_append; congruence. Qed.

Lemma unlines_starts (line : string) (lines : list string) :
  exists after, unlines (line :: lines) = line +:+ after.
Proof.
  destruct lines as [|next lines].
  - exists EmptyString. now rewrite append_empty.
  - eexists. now rewrite unlines_cons.
Qed.

(** A line of a template is part of its text. *)
Lemma unlines_line (lines : list string) (i : nat) (line : string) :
  lines !! i = Some line -> includes (unlines lines) line = true.
Proof.
  rewrite includes_spec. revert i. induction lines as [|first rest IH]; intros i H.
  - discriminate.
  - destruct i as [|i]; simpl in H.
    + injection H as ->. destruct (unlines_starts line rest) as [after ->].
      now exists EmptyString, after.
    + destruct (IH i H) as (before & after & Hrest).
      rewrite unlines_cons by (intros ->; discriminate). rewrite Hrest.
      exists (first +:+ nl +:+ before), after. now rewrite !append_assoc.
Qed.


(** A statement is part of the line that holds it after its indentation. *)
Ltac within_line indent :=
  apply includes_spec; exists indent, EmptyString;
  rewrite ?append_empty, ?append_assoc; reflexivity.

Lemma codeMapOf_playwright (playwrightCode seleniumCode cypressCode : string) :
  getProperty (codeMapOf playwrightCode seleniumCode cypressCode) "playwright" = OwnValue playwrightCode.
Proof. reflexivity. Qed.

Lemma codeMapOf_selenium (playwrightCode seleniumCode cypressCode : string) :
  getProperty (codeMapOf playwrightCode seleniumCode cypressCode) "selenium" = OwnValue seleniumCode.
Proof. reflexivity. Qed.

Lemma codeMapOf_cypress (playwrightCode seleniumCode cypressCode : string) :
  getProperty (codeMapOf playwrightCode seleniumCode cypressCode) "cypress" = OwnValue cypressCode.
Proof. reflexivity. Qed.






(** ** Repeating the classification *)

(** Apart from its identifier and time stamps, the defect created for a
    failed execution does not depend on the world. *)
Lemma createBugFromFailedTest_world host execution testCase config w1 w2 :
  withoutIdAndTimes (valueIn w1 (createBugFromFailedTest host execution testCase config)) =
  withoutIdAndTimes (valueIn w2 (createBugFromFailedTest host execution testCase config)).
Proof. reflexivity. Qed.

Lemma detectBugs_loop_world host failedExecutions testCases config w1 w2 :
  map withoutIdAndTimes (fst (detectBugs_loop host failedExecutions testCases config w1)) =
  map withoutIdAndTimes (fst (detectBugs_loop host failedExecutions testCases config w2)).
Proof.
  revert w1 w2. induction failedExecutions as [|execution rest IH]; intros w1 w2; simpl.
  - reflexivity.
  - destruct (List.find _ testCases) as [testCase|]; [|apply IH].
    rewrite !bind_run. simpl. apply (f_equal2 cons); [|apply IH].
    apply (createBugFromFailedTest_world host execution testCase config w1 w2).
Qed.

Lemma probe_world (enabled : bool) (probe : Io (list Bug)) (w1 w2 : World) :
  (forall w w', map withoutIdAndTimes (fst (probe w)) = map withoutIdAndTimes (fst (probe w'))) ->
  map withoutIdAndTimes (fst ((if enabled then probe else ret []) w1)) =
  map withoutIdAndTimes (fst ((if enabled then probe else ret []) w2)).
Proof. intros H. destruct enabled; [apply H | reflexivity]. Qed.

(** C3, as amended.  Two runs of [detectBugs] on the same executions, test
    cases and configuration, in any two states of the clock and the random
    number generator, both resolve, and their defects agree in every field
    except the identifier and the two time stamps (createdAt, updatedAt); in
    particular they agree in severity and category. *)
Theorem detectBugs_repeatable host executions testCases config w1 w2 :
  exists bugs1 bugs2,
    valueIn w1 (detectBugs host executions testCases config) = Resolved bugs1 /\
    valueIn w2 (detectBugs host executions testCases config) = Resolved bugs2 /\
    sameExceptIdsAndTimes bugs1 bugs2 /\
    map bug_severity bugs1 = map bug_severity bugs2 /\
    map bug_category bugs1 = map bug_category bugs2.
Proof.
  assert (Hsame : exists bugs1 bugs2,
    valueIn w1 (detectBugs host executions testCases config) = Resolved bugs1 /\
    valueIn w2 (detectBugs host executions testCases config) = Resolved bugs2 /\
    sameExceptIdsAndTimes bugs1 bugs2).
  { unfold detectBugs, valueIn, sameExceptIdsAndTimes. rewrite !bind_run.
    eexists _, _. split; [reflexivity|]. split; [reflexivity|].
    rewrite !map_app.
    apply (f_equal2 app); [apply detectBugs_loop_world|].
    apply (f_equal2 app); [|apply (f_equal2 app)]; apply probe_world; reflexivity. }
  destruct Hsame as (bugs1 & bugs2 & H1 & H2 & Hsame).
  exists bugs1, bugs2. repeat split; try assumption.
  - apply (f_equal (map bug_severity)) in Hsame.
    now rewrite !map_map in Hsame.
  - apply (f_equal (map bug_category)) in Hsame.
    now rewrite !map_map in Hsame.
Qed.

(** The same failed execution classified in a world whose clock starts at
    1000 and in one whose clock starts at 2000: the two defects carry
    different time stamps, so they differ in more than their identifiers. *)
Lemma detectBugs_timestamps_differ :
  (forall host, exists bug,
     valueIn (worldAt 1000) (detectBugs host [failedExecution] buttonTests probesOff) =
       Resolved [bug] /\
     bug_createdAt bug = TimeValue 1001 /\ bug_updatedAt bug = TimeValue 1002) /\
  (forall host, exists bug,
     valueIn (worldAt 2000) (detectBugs host [failedExecution] buttonTests probesOff) =
       Resolved [bug] /\
     bug_createdAt bug = TimeValue 2001 /\ bug_updatedAt bug = TimeValue 2002) /\
  ~ (exists host bugs1 bugs2,
       valueIn (worldAt 1000) (detectBugs host [failedExecution] buttonTests probesOff) =
         Resolved bugs1 /\
       valueIn (worldAt 2000) (detectBugs host [failedExecution] buttonTests probesOff) =
         Resolved bugs2 /\
       sameExceptIds bugs1 bugs2).
Proof.
  split; [|split].
  - intros host. eexists. split; [vm_compute; reflexivity | split; reflexivity].
  - intros host. eexists. split; [vm_compute; reflexivity | split; reflexivity].
  - intros (host & bugs1 & bugs2 & H1 & H2 & Hsame).
    vm_compute in H1, H2. injection H1 as <-. injection H2 as <-.
    unfold sameExceptIds in Hsame. simpl in Hsame. discriminate Hsame.
Qed.

(** ** Thresholds *)

Lemma detectBugs_loop_config host failedExecutions testCases config1 config2 w :
  detectBugs_loop host failedExecutions testCases config1 w =
  detectBugs_loop host failedExecutions testCases config2 w.
Proof.
  revert w. induction failedExecutions as [|execution rest IH]; intros w; simpl.
  - reflexivity.
  - destruct (List.find _ testCases) as [testCase|]; [|apply IH].
    rewrite !bind_run. simpl. now rewrite IH.
Qed.

(** C10.  Two configurations with the same three switches make [detectBugs]
    behave the same, whatever their thresholds: the same defects, and the
    same readings of the clock and of the random number generator. *)
Theorem detectBugs_ignores_thresholds host executions testCases config1 config2 w :
  enableVisualTesting config1 = enableVisualTesting config2 ->
  enablePerformanceTesting config1 = enablePerformanceTesting config2 ->
  enableAccessibilityTesting config1 = enableAccessibilityTesting config2 ->
  detectBugs host executions testCases config1 w =
  detectBugs host executions testCases config2 w.
Proof.
  intros Hv Hp Ha. unfold detectBugs. rewrite Hv, Hp, Ha.
  rewrite !(bind_run (detectBugs_loop _ _ _ _)).
  now rewrite (detectBugs_loop_config host _ testCases config1 config2 w).
Qed.

Lemma detectBugs_ignores_thresholds_witness :
  detectBugs sampleHost [failedExecution] buttonTests bugDetectionConfig (worldAt 1000) =
  detectBugs sampleHost [failedExecution] buttonTests otherThresholds (worldAt 1000).
Proof.
  apply (detectBugs_ignores_thresholds sampleHost [failedExecution] buttonTests
           bugDetectionConfig otherThresholds (worldAt 1000)); reflexivity.
Defined.

(** ** Tracker configuration *)

Lemma includes_append_r (a b p : string) : includes b p = true -> includes (a +:+ b) p = true.
Proof.
  rewrite !includes_spec. intros (before & after & ->).
  exists (a +:+ before), after. now rewrite append_assoc.
Qed.

Lemma includes_append_l (a b p : string) : includes a p = true -> includes (a +:+ b) p = true.
Proof.
  rewrite !includes_spec. intros (before & after & ->).
  exists before, (after +:+ b). now rewrite !append_assoc.
Qed.

Lemma existsb_false {A} (f : A -> bool) (items : list A) :
  existsb f items = false <-> Forall (fun item => f item = false) items.
Proof.
  induction items as [|item rest IH]; cbn [existsb].
  - split; [constructor | reflexivity].
  - rewrite orb_false_iff, Forall_cons, IH. reflexivity.
Qed.

Lemma allEmailChars_plain (part : string) : allEmailChars part = true <-> plain part.
Proof.
  unfold plain. induction part as [|c part IH].
  - split; [intros _ | reflexivity]. split; [reflexivity|]. repeat constructor.
  - cbn [allEmailChars includes]. unfold startsWithWhiteSpace.
    rewrite !andb_true_iff, !negb_true_iff, IH, existsb_false, orb_false_iff.
    cbn [startsWith]. rewrite andb_true_r, (Ascii.eqb_sym "@" c).
    assert (Hall : Forall (fun space => startsWith (String c part) space ||
                                        includes part space = false) whiteSpace <->
                   Forall (fun space => startsWith (String c part) space = false) whiteSpace /\
                   Forall (fun space => includes part space = false) whiteSpace).
    { rewrite <- Forall_and. apply Forall_iff. intros space. apply orb_false_iff. }
    rewrite Hall. tauto.
Qed.

Lemma startsWith_separated (separator : ascii) (piece : string) :
  avoids separator piece = true ->
  forall before after,
    startsWith (before +:+ String separator after) piece = startsWith before piece.
Proof.
  unfold avoids. induction piece as [|x piece IH]; [discriminate|].
  cbn [String.eqb negb andb String.list_ascii_of_string forallb].
  rewrite andb_true_iff, negb_true_iff. intros [Hx Hpiece] before after.
  destruct before as [|y before]; push_append; cbn [startsWith].
  - now rewrite Hx.
  - destruct piece as [|x' piece]; [reflexivity|]. f_equal. now apply IH.
Qed.

Lemma includes_separated (separator : ascii) (piece before after : string) :
  avoids separator piece = true ->
  includes (before +:+ String separator after) piece =
  includes before piece || includes after piece.
Proof.
  intros Havoids. induction before as [|y before IH]; push_append.
  - cbn [includes]. rewrite <- (append_nil (String separator after)).
    rewrite (startsWith_separated separator piece Havoids EmptyString after).
    reflexivity.
  - cbn [includes]. rewrite IH, <- (append_cons y before (String separator after)).
    rewrite (startsWith_separated separator piece Havoids (String y before) after).
    now rewrite orb_assoc.
Qed.

Lemma whiteSpace_avoids_dot : Forall (fun piece => avoids "." piece = true) ("@"%string :: whiteSpace).
Proof. repeat constructor. Qed.

Lemma plain_joined (label rest : string) :
  plain label -> plain rest -> plain (label +:+ "." +:+ rest).
Proof.
  unfold plain. intros [Hat1 Hspace1] [Hat2 Hspace2].
  pose proof whiteSpace_avoids_dot as Havoids. apply Forall_cons in Havoids.
  destruct Havoids as [Hat Hspaces]. split.
  - change ("." +:+ rest) with (String "." rest).
    now rewrite includes_separated, Hat1, Hat2.
  - rewrite Forall_forall in *. intros space Hin.
    change ("." +:+ rest) with (String "." rest).
    rewrite includes_separated by now apply Hspaces.
    now rewrite Hspace1, Hspace2.
Qed.

Lemma not_included (text piece : string) :
  includes text piece = false <-> ~ includes text piece = true.
Proof. destruct (includes text piece); split; congruence. Qed.

Lemma plain_parts (label rest : string) :
  plain (label +:+ "." +:+ rest) -> plain label /\ plain rest.
Proof.
  unfold plain. intros [Hat Hspace]. rewrite !Forall_forall in *. repeat split.
  - apply not_included. intros H. apply not_included in Hat. apply Hat.
    now apply includes_append_l.
  - intros space Hin. apply not_included. intros H.
    specialize (Hspace space Hin). apply not_included in Hspace. apply Hspace.
    now apply includes_append_l.
  - apply not_included. intros H. apply not_included in Hat. apply Hat.
    now apply includes_append_r, includes_append_r.
  - intros space Hin. apply not_included. intros H.
    specialize (Hspace space Hin). apply not_included in Hspace. apply Hspace.
    now apply includes_append_r, includes_append_r.
Qed.

Lemma splitAtSign_sound (address localPart domain : string) :
  splitAtSign address = Some (localPart, domain) ->
  address = localPart +:+ "@" +:+ domain.
Proof.
  revert localPart. induction address as [|c address IH]; intros localPart; simpl.
  - discriminate.
  - destruct (Ascii.eqb_spec c "@") as [->|_].
    + now intros [= <- <-].
    + destruct (splitAtSign address) as [[before after]|]; [|discriminate].
      intros [= <- <-]. push_append. now rewrite (IH before).
Qed.

Lemma splitAtSign_complete (localPart domain : string) :
  includes localPart "@" = false ->
  splitAtSign (localPart +:+ "@" +:+ domain) = Some (localPart, domain).
Proof.
  induction localPart as [|c localPart IH]; push_append; [reflexivity|].
  cbn [includes startsWith splitAtSign]. rewrite andb_true_r, orb_false_iff.
  intros [Hc Hrest]. rewrite (Ascii.eqb_sym c "@"), Hc. now rewrite (IH Hrest).
Qed.

Lemma hasInnerDot_sound (seenOne : bool) (domain : string) :
  hasInnerDot seenOne domain = true ->
  exists label rest,
    domain = label +:+ "." +:+ rest /\ rest <> EmptyString /\
    (seenOne = false -> label <> EmptyString).
Proof.
  revert seenOne. induction domain as [|c domain IH]; intros seenOne; simpl; [discriminate|].
  intros H. apply orb_true_iff in H. destruct H as [H | H].
  - apply andb_true_iff in H. destruct H as [H Hrest].
    apply andb_true_iff in H. destruct H as [-> Hdot].
    apply Ascii.eqb_eq in Hdot. subst c.
    exists EmptyString, domain. repeat split; [|discriminate].
    intros ->. discriminate.
  - destruct (IH true H) as (label & rest & -> & Hrest & _).
    exists (String c label), rest. repeat split; [assumption | discriminate].
Qed.

Lemma hasInnerDot_complete (seenOne : bool) (label rest : string) :
  rest <> EmptyString -> (seenOne = true \/ label <> EmptyString) ->
  hasInnerDot seenOne (label +:+ "." +:+ rest) = true.
Proof.
  intros Hrest. revert seenOne. induction label as [|c label IH]; intros seenOne Hseen; push_append; simpl.
  - destruct Hseen as [-> | Hne]; [|congruence].
    destruct rest; [congruence | reflexivity].
  - rewrite (IH true) by now left. apply orb_true_r.
Qed.

(** X1.  [isValidEmail] accepts exactly the addresses of the regular
    expression: a non-empty local part, an [@], and a domain with an inner
    dot, in none of which a white space character, of ASCII or not, or a
    further [@] occurs. *)
Lemma isValidEmail_shape (address : string) :
  isValidEmail address = true <-> emailShape address.
Proof.
  unfold isValidEmail, emailShape. split.
  - destruct (splitAtSign address) as [[localPart domain]|] eqn:E; [|discriminate].
    apply splitAtSign_sound in E. subst address.
    rewrite !andb_true_iff, negb_true_iff, !allEmailChars_plain.
    intros [[[Hne Hlocal] Hdomain] Hdot].
    destruct (hasInnerDot_sound false domain Hdot) as (label & rest & -> & Hrest & Hlabel).
    apply plain_parts in Hdomain. destruct Hdomain as [Hplain1 Hplain2].
    exists localPart, label, rest. split; [reflexivity|].
    split; [intros ->; discriminate|]. split; [tauto|]. split; [exact Hrest|].
    split; [exact Hlocal|]. split; assumption.
  - intros (localPart & label & rest & -> & Hl & Hlab & Hrest & Hcl & Hclab & Hcrest).
    rewrite splitAtSign_complete by apply Hcl.
    apply allEmailChars_plain in Hcl as ->.
    pose proof (plain_joined label rest Hclab Hcrest) as Hdomain.
    apply allEmailChars_plain in Hdomain as ->.
    rewrite hasInnerDot_complete by (assumption || now right).
    destruct localPart; [congruence | reflexivity].
Qed.

(** A no-break space (U+00A0) or an ideographic space (U+3000) in the local
    part makes an address invalid, as an ASCII space does; a letter outside
    ASCII does not. *)
Lemma isValidEmail_white_space :
  isValidEmail ("a" +:+ character 0xA0 +:+ "b@c.d") = false /\
  isValidEmail ("a" +:+ character 0x3000 +:+ "b@c.d") = false /\
  isValidEmail "a b@c.d" = false /\
  isValidEmail ("a" +:+ character 0xE9 +:+ "b@c.d") = true.
Proof.
  split; [vm_compute; reflexivity|]. split; [vm_compute; reflexivity|].
  split; vm_compute; reflexivity.
Qed.

Lemma validateJiraConfig_length host config :
  length (validateJiraConfig host config) = violations host config.
Proof.
  unfold validateJiraConfig, violations, requirementsMet, isValidUrl.
  destruct config as [[[|c1 r1]|] [[|c2 r2]|] [[|c3 r3]|] [[|c4 r4]|] [[|c5 r5]|] auto];
    cbn [partial_baseUrl partial_email partial_apiToken partial_projectKey partial_issueType
         truthy orElse negb String.eqb andb];
    try destruct (URL_parses host _); try destruct (isValidEmail _); reflexivity.
Qed.

Lemma createJiraTicket_resolves host bug config w ms :
  bug_createdAt bug = TimeValue ms ->
  exists ticket,
    valueIn w (createJiraTicket host bug config) = Resolved ticket /\
    ticket_reporter ticket = email config /\
    ticket_priority ticket = mapBugSeverityToJiraPriority (bug_severity bug).
Proof.
  intros Hdate. unfold createJiraTicket, formatBugDescriptionForJira, toISOString.
  rewrite Hdate. unfold valueIn. rewrite !bind_run. simpl. eexists. repeat split.
Qed.

(** C5, as amended.  [validateJiraConfig] reports one error for each of the
    five requirements the configuration violates, all of them together: it
    returns no error exactly when the base URL is non-empty and a valid URL,
    the email non-empty and syntactically valid, and the API token, the
    project key and the issue type non-empty; a configuration with an empty
    base URL and an empty API token gets at least two errors.
    [createJiraTicket] does not consult the validation: for a defect with a
    valid creation date it resolves with a ticket whatever the
    configuration. *)
Theorem validateJiraConfig_reports_all host config :
  length (validateJiraConfig host config) = violations host config /\
  (validateJiraConfig host config = [] <->
   Forall (fun met => met = true) (requirementsMet host config)) /\
  (truthy (partial_baseUrl config) = false -> truthy (partial_apiToken config) = false ->
   2 <= length (validateJiraConfig host config)) /\
  (forall bug jiraConfig w ms,
     bug_createdAt bug = TimeValue ms ->
     exists ticket, valueIn w (createJiraTicket host bug jiraConfig) = Resolved ticket).
Proof.
  split; [apply validateJiraConfig_length|]. split; [|split].
  - rewrite <- length_zero_iff_nil, validateJiraConfig_length. unfold violations.
    rewrite length_zero_iff_nil. split.
    + intros Hnone. apply Forall_forall. intros met Hmet.
      destruct met; [reflexivity|]. exfalso.
      apply (filter_nil_not_elem_of _ _ false Hnone); [reflexivity | assumption].
    + intros Hall. apply filter_none. intros met Hmet Hfalse.
      rewrite Forall_forall in Hall. specialize (Hall met Hmet). congruence.
  - rewrite validateJiraConfig_length. unfold violations, requirementsMet.
    destruct config as [[[|c1 r1]|] e [[|c3 r3]|] k t auto]; cbn [partial_baseUrl partial_apiToken truthy];
      intros Hb Ht; try discriminate;
      rewrite !filter_cons; cbn [negb String.eqb andb];
      repeat (match goal with |- context [decide (?b = false)] => destruct (decide (b = false)) end);
      simpl; try lia; congruence.
  - intros bug jiraConfig w ms Hdate.
    destruct (createJiraTicket_resolves host bug jiraConfig w ms Hdate) as (ticket & H & _).
    now exists ticket.
Qed.

(** The configuration the Jira panel starts with has an empty base URL,
    email, API token and project key: [validateJiraConfig] reports four
    errors for it, and [createJiraTicket] called with it resolves with a
    ticket all the same. *)
Lemma createJiraTicket_not_validated :
  (forall host,
     validateJiraConfig host (asPartial initialJiraConfig) =
     [ "Base URL is required"; "Email is required"; "API Token is required";
       "Project Key is required" ]) /\
  (exists ticket,
     valueIn (worldAt 1000) (createJiraTicket sampleHost performanceBug initialJiraConfig) =
       Resolved ticket /\
     ticket_key ticket = "-500" /\
     ticket_reporter ticket = "" /\
     ticket_url ticket = "/browse/-500") /\
  (forall host w,
     exists ticket,
       valueIn w (createJiraTicket host performanceBug initialJiraConfig) = Resolved ticket).
Proof.
  split; [reflexivity|]. split.
  - eexists. split; [vm_compute; reflexivity | repeat split].
  - intros host w.
    destruct (createJiraTicket_resolves host performanceBug initialJiraConfig w 1000 eq_refl)
      as (ticket & H & _).
    now exists ticket.
Qed.

(** ** Further rules of the two engines *)





(** X4.  The category of a failure-derived defect: functional and ui test cases
    give functional and ui defects, integration test cases give functional
    defects. *)
Theorem failure_category host execution testCase config w :
  bug_category (valueIn w (createBugFromFailedTest host execution testCase config)) =
  match tc_category testCase with
  | TestGenerator.functional => BugDetector.functional
  | TestGenerator.ui => BugDetector.ui
  | TestGenerator.integration => BugDetector.functional
  end.
Proof.
  unfold valueIn, createBugFromFailedTest. rewrite !bind_run. cbn [fst ret bug_category].
  destruct (tc_category testCase); reflexivity.
Qed.

(** * Further properties *)

(** ** Test synthesis: identifiers and counts *)

Lemma decimal_inj (a b : nat) : decimal a = decimal b -> a = b.
Proof.
  unfold decimal. intros H. apply DecimalNat.Unsigned.to_uint_inj.
  assert (Hnonnil : forall n, Nat.to_uint n <> Decimal.Nil).
  { intros n Hn. pose proof (DecimalNat.Unsigned.to_of (Nat.to_uint n)) as Hto.
    rewrite DecimalNat.Unsigned.of_to, Hn in Hto. discriminate Hto. }
  pose proof (NilZero.usu _ (Hnonnil a)) as Ha.
  pose proof (NilZero.usu _ (Hnonnil b)) as Hb.
  rewrite H in Ha. congruence.
Qed.

(** The identifiers the callback can give at position [index]. *)
Lemma callback_ids config element index tc :
  tc ∈ generateTestCases_callback config element index ->
  tc_id tc ∈ [ "btn-test-" +:+ decimal index; "input-test-" +:+ decimal index;
               "negative-input-test-" +:+ decimal index; "link-test-" +:+ decimal index;
               "form-test-" +:+ decimal index ].
Proof.
  unfold generateTestCases_callback.
  destruct (el_type element); [| destruct (cfg_includeNegativeTests config) | | | |];
    rewrite ?elem_of_cons, ?elem_of_nil; intros H;
    repeat match goal with H : _ \/ _ |- _ => destruct H as [H | H] end;
    try contradiction; subst tc; cbn [tc_id generateButtonTest generateInputTest
      generateNegativeInputTest generateLinkTest generateFormTest]; set_solver.
Qed.

(** An identifier names one position only. *)
Lemma position_of_id (id : string) (i j : nat) :
  id ∈ [ "btn-test-" +:+ decimal i; "input-test-" +:+ decimal i;
         "negative-input-test-" +:+ decimal i; "link-test-" +:+ decimal i;
         "form-test-" +:+ decimal i ] ->
  id ∈ [ "btn-test-" +:+ decimal j; "input-test-" +:+ decimal j;
         "negative-input-test-" +:+ decimal j; "link-test-" +:+ decimal j;
         "form-test-" +:+ decimal j ] ->
  i = j.
Proof.
  rewrite !elem_of_cons, !elem_of_nil. intros Hi Hj.
  repeat match goal with H : _ \/ _ |- _ => destruct H as [H | H] end;
    try contradiction; subst id;
    rewrite ?append_cons, ?append_nil in Hj; try discriminate Hj;
    apply decimal_inj; congruence.
Qed.

Lemma callback_ids_NoDup config element index :
  NoDup (map tc_id (generateTestCases_callback config element index)).
Proof.
  unfold generateTestCases_callback.
  destruct (el_type element); [| destruct (cfg_includeNegativeTests config) | | | |];
    cbn [map tc_id generateButtonTest generateInputTest generateNegativeInputTest
         generateLinkTest generateFormTest];
    repeat constructor; rewrite ?elem_of_cons, ?elem_of_nil;
    rewrite ?append_cons, ?append_nil; intuition discriminate.
Qed.

Lemma forEach_ids config index elements tc :
  tc ∈ generateTestCases_forEach config index elements ->
  exists j, index <= j /\
    tc_id tc ∈ [ "btn-test-" +:+ decimal j; "input-test-" +:+ decimal j;
                 "negative-input-test-" +:+ decimal j; "link-test-" +:+ decimal j;
                 "form-test-" +:+ decimal j ].
Proof.
  revert index. induction elements as [|element rest IH]; intros index; simpl.
  - now rewrite elem_of_nil.
  - rewrite elem_of_app. intros [H | H].
    + exists index. split; [lia | now apply callback_ids in H].
    + destruct (IH _ H) as (j & Hj & Hid). exists j. split; [lia | assumption].
Qed.

Lemma forEach_ids_NoDup config index elements :
  NoDup (map tc_id (generateTestCases_forEach config index elements)).
Proof.
  revert index. induction elements as [|element rest IH]; intros index; simpl.
  - constructor.
  - rewrite map_app. apply NoDup_app. split; [apply callback_ids_NoDup|]. split; [|apply IH].
    intros id Hhere Hrest.
    apply list_elem_of_fmap in Hhere. destruct Hhere as (tc1 & -> & H1).
    apply list_elem_of_fmap in Hrest. destruct Hrest as (tc2 & Heq & H2).
    apply callback_ids in H1. apply forEach_ids in H2. destruct H2 as (j & Hj & H2).
    rewrite <- Heq in H2. pose proof (position_of_id _ _ _ H1 H2). lia.
Qed.

(** X5.  The identifiers of the test cases [generateTestCases] returns are
    pairwise different. *)
Theorem generated_ids_unique (config : GenerateTestsConfig) :
  exists testCases,
    generateTestCases config = Resolved testCases /\ NoDup (map tc_id testCases).
Proof.
  eexists. split; [apply generateTestCases_value|].
  rewrite map_app. apply NoDup_app. split; [apply forEach_ids_NoDup|]. split.
  - intros id Hhere Hworkflow. destruct (0 <? _); [|now apply elem_of_nil in Hworkflow].
    apply list_elem_of_singleton in Hworkflow.
    apply list_elem_of_fmap in Hhere. destruct Hhere as (tc & Heq & Htc).
    destruct (forEach_member _ _ _ _ Htc) as (element & i & _ & Hi).
    apply callback_member in Hi. destruct Hi as (_ & _ & Hnot & _).
    apply Hnot. unfold isWorkflowSpecification. rewrite <- Heq, Hworkflow. reflexivity.
  - destruct (0 <? _); repeat constructor. now rewrite elem_of_nil.
Qed.

Lemma callback_length config element index :
  length (generateTestCases_callback config element index) =
  match el_type element with
  | button | link | form => 1
  | input => if cfg_includeNegativeTests config then 2 else 1
  | select | textarea => 0
  end.
Proof.
  unfold generateTestCases_callback.
  destruct (el_type element); try reflexivity.
  now destruct (cfg_includeNegativeTests config).
Qed.

Lemma forEach_length config index elements :
  length (generateTestCases_forEach config index elements) =
  length (filter (fun el => el_type el = button) elements) +
  (if cfg_includeNegativeTests config then 2 else 1) *
    length (filter (fun el => el_type el = input) elements) +
  length (filter (fun el => el_type el = link) elements) +
  length (filter (fun el => el_type el = form) elements).
Proof.
  revert index. induction elements as [|element rest IH]; intros index.
  { cbn. now destruct (cfg_includeNegativeTests config). }
  cbn [generateTestCases_forEach]. rewrite length_app, callback_length, IH, !filter_cons.
  destruct (el_type element), (cfg_includeNegativeTests config);
    repeat case_decide; try congruence; cbn [length]; lia.
Qed.

(** X6.  How many test cases [generateTestCases] returns: one for each
    button, link and form, one for each input and a second one when negative
    tests are asked for, none for a select or a textarea, and one more, the
    workflow test, when there is a form. *)
Theorem generated_count (config : GenerateTestsConfig) :
  exists testCases,
    generateTestCases config = Resolved testCases /\
    length testCases =
      length (filter (fun el => el_type el = button) (cfg_elements config)) +
      (if cfg_includeNegativeTests config then 2 else 1) *
        length (filter (fun el => el_type el = input) (cfg_elements config)) +
      length (filter (fun el => el_type el = link) (cfg_elements config)) +
      length (filter (fun el => el_type el = form) (cfg_elements config)) +
      (if 0 <? length (filter (fun el => el_type el = form) (cfg_elements config))
       then 1 else 0).
Proof.
  eexists. split; [apply generateTestCases_value|].
  rewrite length_app, forEach_length. now destruct (0 <? _).
Qed.

Lemma forEach_includeValidation elements framework baseUrl negative v1 v2 index :
  generateTestCases_forEach
    {| cfg_elements := elements; cfg_framework := framework; cfg_baseUrl := baseUrl;
       cfg_includeValidation := v1; cfg_includeNegativeTests := negative |} index elements =
  generateTestCases_forEach
    {| cfg_elements := elements; cfg_framework := framework; cfg_baseUrl := baseUrl;
       cfg_includeValidation := v2; cfg_includeNegativeTests := negative |} index elements.
Proof.
  generalize elements at 1 3. intros all. revert index.
  induction elements as [|element rest IH]; intros index; [reflexivity|].
  cbn [generateTestCases_forEach]. now rewrite IH.
Qed.

(** X7.  The switch [includeValidation] has no effect: two configurations
    that differ in it alone give the same test cases. *)
Theorem includeValidation_ignored elements framework baseUrl negative v1 v2 :
  generateTestCases
    {| cfg_elements := elements; cfg_framework := framework; cfg_baseUrl := baseUrl;
       cfg_includeValidation := v1; cfg_includeNegativeTests := negative |} =
  generateTestCases
    {| cfg_elements := elements; cfg_framework := framework; cfg_baseUrl := baseUrl;
       cfg_includeValidation := v2; cfg_includeNegativeTests := negative |}.
Proof.
  rewrite !generateTestCases_value. cbn [cfg_elements cfg_framework cfg_baseUrl].
  now rewrite (forEach_includeValidation elements framework baseUrl negative v1 v2).
Qed.

(** ** Test synthesis: the bodies *)

(** The body is the template of the framework, and line [k] of it, after
    its indentation, is the statement that opens the base URL. *)
Ltac visits_at k indent :=
  unfold visits; cbn [tc_code tc_framework];
  first [ rewrite codeMapOf_playwright | rewrite codeMapOf_selenium
        | rewrite codeMapOf_cypress ];
  cbn [visitStatement String.eqb Ascii.eqb Bool.eqb];
  eapply includes_trans;
  [ apply (unlines_line _ k); reflexivity | within_line indent ].

Lemma generateButtonTest_visits element framework baseUrl index :
  isTestFramework framework ->
  visits (generateButtonTest element framework baseUrl index) baseUrl = true.
Proof.
  unfold generateButtonTest. intros [-> | [-> | ->]].
  - visits_at 4 "  ".
  - visits_at 9 "        ".
  - visits_at 3 "    ".
Qed.

Lemma generateInputTest_visits element framework baseUrl index :
  isTestFramework framework ->
  visits (generateInputTest element framework baseUrl index) baseUrl = true.
Proof.
  unfold generateInputTest. intros [-> | [-> | ->]].
  - visits_at 4 "  ".
  - visits_at 7 "        ".
  - visits_at 3 "    ".
Qed.

Lemma generateNegativeInputTest_visits element framework baseUrl index :
  isTestFramework framework ->
  visits (generateNegativeInputTest element framework baseUrl index) baseUrl = true.
Proof.
  unfold generateNegativeInputTest. intros [-> | [-> | ->]].
  - visits_at 4 "  ".
  - visits_at 7 "        ".
  - visits_at 3 "    ".
Qed.

Lemma generateLinkTest_visits element framework baseUrl index :
  isTestFramework framework ->
  visits (generateLinkTest element framework baseUrl index) baseUrl = true.
Proof.
  unfold generateLinkTest. intros [-> | [-> | ->]].
  - visits_at 4 "  ".
  - visits_at 7 "        ".
  - visits_at 3 "    ".
Qed.

Lemma generateFormTest_visits element framework baseUrl index :
  isTestFramework framework ->
  visits (generateFormTest element framework baseUrl index) baseUrl = true.
Proof.
  unfold generateFormTest. intros [-> | [-> | ->]].
  - visits_at 4 "  ".
  - visits_at 7 "        ".
  - visits_at 3 "    ".
Qed.

Lemma generateWorkflowTest_visits elements framework baseUrl :
  isTestFramework framework ->
  visits (generateWorkflowTest elements framework baseUrl) baseUrl = true.
Proof.
  unfold generateWorkflowTest. intros [-> | [-> | ->]].
  - visits_at 4 "  ".
  - visits_at 9 "        ".
  - visits_at 3 "    ".
Qed.

(** X8.  With one of the three frameworks, the body of every test case
    [generateTestCases] returns opens the base URL of the configuration, with
    the framework's own statement for it. *)
Theorem generated_bodies_visit (config : GenerateTestsConfig) :
  exists testCases,
    generateTestCases config = Resolved testCases /\
    (isTestFramework (cfg_framework config) ->
     Forall (fun tc => visits tc (cfg_baseUrl config) = true) testCases).
Proof.
  eexists. split; [apply generateTestCases_value|].
  intros Hfw. apply Forall_forall. intros tc. rewrite elem_of_app. intros [H | H].
  - destruct (forEach_member _ _ _ _ H) as (element & i & _ & Hi).
    unfold generateTestCases_callback in Hi.
    destruct (el_type element); [| destruct (cfg_includeNegativeTests config) | | | |];
      rewrite ?elem_of_cons, ?elem_of_nil in Hi;
      repeat match goal with H : _ \/ _ |- _ => destruct H as [H | H] end;
      try contradiction; subst tc;
      auto using generateButtonTest_visits, generateInputTest_visits,
        generateNegativeInputTest_visits, generateLinkTest_visits, generateFormTest_visits.
  - destruct (0 <? _); [|now apply elem_of_nil in H].
    apply list_elem_of_singleton in H. subst tc. now apply generateWorkflowTest_visits.
Qed.

(** ** Selectors and downloads *)

Lemma beforeFirstSpace_append (first rest : string) :
  includes first " " = false ->
  beforeFirstSpace (first +:+ " " +:+ rest) = first.
Proof.
  induction first as [|c first IH]; push_append; [reflexivity|].
  change (includes (String c first) " ")
    with (Ascii.eqb " " c && true || includes first " ").
  rewrite orb_false_iff, andb_true_r. intros [Hc Hrest].
  cbn [beforeFirstSpace]. rewrite Ascii.eqb_sym, Hc. now rewrite IH.
Qed.

(** X9.  [generateElementSelector] returns the empty selector only for an
    element without id, name and class whose xpath is empty; and for an
    element without id and name whose class attribute lists several classes,
    separated by spaces, it returns a dot and the first class alone, which
    is the bare dot when the attribute starts with a space. *)
Theorem generateElementSelector_cases (element : ScrapedElement) :
  (generateElementSelector element = EmptyString <->
   truthy (el_attributes element !! "id") = false /\
   truthy (el_attributes element !! "name") = false /\
   truthy (el_attributes element !! "class") = false /\
   el_xpath element = EmptyString) /\
  (forall first rest,
     truthy (el_attributes element !! "id") = false ->
     truthy (el_attributes element !! "name") = false ->
     includes first " " = false ->
     el_attributes element !! "class" = Some (first +:+ " " +:+ rest) ->
     generateElementSelector element = "." +:+ first).
Proof.
  unfold generateElementSelector. split.
  - destruct (truthy (el_attributes element !! "id"));
      [split; [discriminate | intros [H _]; discriminate]|].
    destruct (truthy (el_attributes element !! "name"));
      [split; [rewrite !append_cons; discriminate | intros (_ & H & _); discriminate]|].
    destruct (truthy (el_attributes element !! "class"));
      [split; [discriminate | intros (_ & _ & H & _); discriminate]|].
    tauto.
  - intros first rest -> -> Hfirst Hclass. rewrite Hclass.
    assert (Htruthy : truthy (Some (first +:+ " " +:+ rest)) = true)
      by (destruct first; reflexivity).
    rewrite Htruthy.
    assert (Hor : orElse (Some (first +:+ " " +:+ rest)) "" = first +:+ " " +:+ rest)
      by (destruct first; reflexivity).
    now rewrite Hor, beforeFirstSpace_append.
Qed.

Lemma characters_append (a b : string) : characters (a +:+ b) = characters a ++ characters b.
Proof. induction a as [|c a IH]; push_append; simpl; congruence. Qed.

Lemma toLowerChar_plain (c : ascii) :
  isUpperCase (toLowerChar c) = false /\ isWhiteSpace (toLowerChar c) = isWhiteSpace c.
Proof. destruct c as [[] [] [] [] [] [] [] []]; split; reflexivity. Qed.

Lemma replaceWhiteSpaceRuns_characters (inRun : bool) (s : string) (c : ascii) :
  c ∈ characters (replaceWhiteSpaceRuns inRun s) ->
  c = "-"%char \/ (c ∈ characters s /\ isWhiteSpace c = false).
Proof.
  revert inRun. induction s as [|x s IH]; intros inRun; simpl.
  - now rewrite elem_of_nil.
  - destruct (isWhiteSpace x) eqn:Hx.
    + destruct inRun; simpl; rewrite ?elem_of_cons; intros H.
      * destruct (IH _ H) as [-> | [Hin Hc]]; [now left | right; split; [now right | assumption]].
      * destruct H as [-> | H]; [now left|].
        destruct (IH _ H) as [-> | [Hin Hc]]; [now left | right; split; [now right | assumption]].
    + simpl. rewrite elem_of_cons. intros [-> | H].
      * right. split; [now left | assumption].
      * destruct (IH _ H) as [-> | [Hin Hc]]; [now left | right; split; [now right | assumption]].
Qed.

Lemma toLowerCase_characters (s : string) (c : ascii) :
  c ∈ characters (toLowerCase s) -> exists x, x ∈ characters s /\ c = toLowerChar x.
Proof.
  induction s as [|x s IH]; simpl.
  - now rewrite elem_of_nil.
  - rewrite elem_of_cons. intros [-> | H].
    + exists x. split; [now left | reflexivity].
    + destruct (IH H) as (y & Hy & ->). exists y. split; [now right | reflexivity].
Qed.

(** X10.  The file name [downloadTestCase] chooses holds no white space and
    no upper-case letter, whatever the name of the test case, and ends in
    '.py' for selenium and in '.js' for every other framework value. *)
Theorem downloadTestCase_fileName (testCase : TestCase) :
  Forall (fun c => isWhiteSpace c = false /\ isUpperCase c = false)
    (characters (download_fileName (downloadTestCase testCase))) /\
  exists stem,
    download_fileName (downloadTestCase testCase) =
    stem +:+ (if String.eqb (tc_framework testCase) "selenium" then ".py" else ".js").
Proof.
  unfold downloadTestCase. cbn [download_fileName]. split.
  - apply Forall_forall. intros c. rewrite !characters_append, !elem_of_app. intros [H | [H | H]].
    + apply replaceWhiteSpaceRuns_characters in H. destruct H as [-> | [H Hws]]; [now split|].
      apply toLowerCase_characters in H. destruct H as (x & _ & ->).
      split; [assumption | apply toLowerChar_plain].
    + apply list_elem_of_singleton in H. now subst c.
    + destruct (String.eqb _ _); simpl in H; rewrite !elem_of_cons, elem_of_nil in H;
        intuition (subst; split; reflexivity).
  - eexists. now destruct (String.eqb _ _).
Qed.

(** ** The mock executor *)

Lemma executeTests_body_shape host testCase w :
  exec_testCaseId (fst (executeTests_body host testCase w)) = tc_id testCase /\
  (exec_status (fst (executeTests_body host testCase w)) = passed /\
   exec_error (fst (executeTests_body host testCase w)) = None /\
   exec_screenshot (fst (executeTests_body host testCase w)) = None \/
   exec_status (fst (executeTests_body host testCase w)) = failed /\
   exec_screenshot (fst (executeTests_body host testCase w)) = Some generateMockScreenshot).
Proof.
  unfold executeTests_body. rewrite !bind_run. cbn [Math_random fst snd].
  destruct (PrimFloat.ltb _ _); rewrite ?bind_run; cbn; auto.
Qed.

Lemma executeTests_loop_shape host testCases w :
  map exec_testCaseId (fst (executeTests_loop host testCases w)) = map tc_id testCases /\
  Forall
    (fun e =>
       exec_status e = passed /\ exec_error e = None /\ exec_screenshot e = None \/
       exec_status e = failed /\ exec_screenshot e = Some generateMockScreenshot)
    (fst (executeTests_loop host testCases w)).
Proof.
  revert w. induction testCases as [|testCase rest IH]; intros w.
  - split; [reflexivity | constructor].
  - cbn [executeTests_loop]. rewrite !bind_run. cbn [ret fst map].
    destruct (executeTests_body_shape host testCase w) as [Hid Hshape].
    destruct (IH (snd (executeTests_body host testCase w))) as [Hids Hall].
    split; [now rewrite Hid, Hids | now constructor].
Qed.

(** X11.  [executeTests] returns one execution for each test case, in the
    order of the test cases and naming its test case.  An execution is
    passed, without error and screenshot, or failed, with the placeholder
    screenshot; none is skipped. *)
Theorem executeTests_shape host testCases w :
  exists executions,
    valueIn w (executeTests host testCases) = Resolved executions /\
    map exec_testCaseId executions = map tc_id testCases /\
    Forall
      (fun e =>
         exec_status e = passed /\ exec_error e = None /\ exec_screenshot e = None \/
         exec_status e = failed /\ exec_screenshot e = Some generateMockScreenshot)
      executions.
Proof.
  unfold executeTests, valueIn. rewrite bind_run. cbn [ret fst].
  eexists. split; [reflexivity | apply executeTests_loop_shape].
Qed.

Lemma find_by_id (id : string) (testCases : list TestCase) :
  id ∈ map tc_id testCases ->
  exists testCase,
    List.find (fun tc => String.eqb (tc_id tc) id) testCases = Some testCase /\
    tc_id testCase = id /\ testCase ∈ testCases.
Proof.
  induction testCases as [|tc rest IH]; simpl.
  - now rewrite elem_of_nil.
  - destruct (String.eqb_spec (tc_id tc) id) as [Heq | Hne].
    + intros _. exists tc. repeat split; [assumption | left].
    + rewrite elem_of_cons. intros [Hid | Hin]; [congruence|].
      destruct (IH Hin) as (found & Hfind & Hfid & Hfound).
      exists found. repeat split; [assumption | assumption | now right].
Qed.

Lemma find_by_id_sound (id : string) (testCases : list TestCase) (testCase : TestCase) :
  List.find (fun tc => String.eqb (tc_id tc) id) testCases = Some testCase ->
  tc_id testCase = id /\ testCase ∈ testCases.
Proof.
  induction testCases as [|tc rest IH]; simpl; [discriminate|].
  destruct (String.eqb_spec (tc_id tc) id) as [Heq | Hne].
  - intros [= <-]. split; [assumption | left].
  - intros H. destruct (IH H). split; [assumption | now right].
Qed.

(** When every execution names a known test case, the loop makes a bug for
    each of them. *)
Lemma detectBugs_loop_complete host failedExecutions testCases config w :
  Forall (fun e => exec_testCaseId e ∈ map tc_id testCases) failedExecutions ->
  map bug_testCaseId (fst (detectBugs_loop host failedExecutions testCases config w)) =
  map (fun e => Some (exec_testCaseId e)) failedExecutions.
Proof.
  revert w. induction failedExecutions as [|execution rest IH]; intros w Hknown.
  - reflexivity.
  - apply Forall_cons in Hknown. destruct Hknown as [Hhere Hrest].
    destruct (find_by_id _ _ Hhere) as (testCase & Hfind & Hid & _).
    cbn [detectBugs_loop]. rewrite Hfind, !bind_run. cbn [ret fst map].
    rewrite IH by assumption. f_equal. cbn. now rewrite Hid.
Qed.

(** X12.  [handleRunTests] does nothing without test cases.  With test
    cases it stores one execution per test case and the bugs detected from
    them: first one bug for each failed execution, in order and naming its
    test case, so that no failed execution is skipped, then the three probe
    bugs. *)
Theorem handleRunTests_defects host w :
  valueIn w (handleRunTests host []) = None /\
  forall testCase rest,
    exists executions failureBugs probeBugs,
      valueIn w (handleRunTests host (testCase :: rest)) =
        Some (executions, failureBugs ++ probeBugs) /\
      map exec_testCaseId executions = map tc_id (testCase :: rest) /\
      map bug_testCaseId failureBugs =
        map (fun e => Some (exec_testCaseId e))
          (filter (fun e => exec_status e = failed) executions) /\
      map bug_id probeBugs = ["visual-bug-1"; "perf-bug-1"; "a11y-bug-1"].
Proof.
  split; [reflexivity|]. intros testCase rest.
  unfold handleRunTests, valueIn. cbn [length Nat.eqb].
  unfold executeTests. rewrite !bind_run. cbn [ret fst snd].
  unfold detectBugs. rewrite !bind_run. cbn [ret fst snd bugDetectionConfig
    enableVisualTesting enablePerformanceTesting enableAccessibilityTesting].
  destruct (executeTests_loop_shape host (testCase :: rest) w) as [Hids _].
  eexists _, _, _. split; [reflexivity|]. split; [exact Hids|]. split; [|reflexivity].
  apply detectBugs_loop_complete.
  apply Forall_forall. intros e He. apply list_elem_of_filter in He. destruct He as [_ He].
  rewrite <- Hids. apply list_elem_of_fmap. now exists e.
Qed.

(** ** What [detectBugs] returns *)

Lemma detectBugs_loop_Forall host testCases config (P : Bug -> Prop) failedExecutions w :
  (forall execution testCase w',
     execution ∈ failedExecutions ->
     List.find (fun tc => String.eqb (tc_id tc) (exec_testCaseId execution)) testCases =
       Some testCase ->
     P (valueIn w' (createBugFromFailedTest host execution testCase config))) ->
  Forall P (fst (detectBugs_loop host failedExecutions testCases config w)).
Proof.
  revert w. induction failedExecutions as [|execution rest IH]; intros w Hall.
  - constructor.
  - cbn [detectBugs_loop].
    destruct (List.find _ testCases) as [testCase|] eqn:Hfind.
    + rewrite !bind_run. cbn [ret fst]. constructor.
      * apply (Hall execution testCase w); [left | assumption].
      * apply IH. intros e tc w' He. apply Hall. now right.
    + apply IH. intros e tc w' He. apply Hall. now right.
Qed.

(** The bugs of the probes. *)
Lemma detectBugs_probes host executions testCases config w :
  exists probeBugs,
    valueIn w (detectBugs host executions testCases config) =
      Resolved
        (fst (detectBugs_loop host (filter (fun exec => exec_status exec = failed) executions)
                testCases config w) ++ probeBugs) /\
    length probeBugs <= 3 /\
    Forall
      (fun bug =>
         bug_testCaseId bug = None /\
         bug_id bug ∈ ["visual-bug-1"; "perf-bug-1"; "a11y-bug-1"] /\
         bug_status bug = open /\ bug_severity bug <> trivial /\
         bug_category bug <> security /\ bug_jiraTicket bug = None /\
         length (bug_steps bug) = 3)
      probeBugs.
Proof.
  unfold detectBugs, valueIn. rewrite !bind_run. cbn [ret fst].
  eexists. split; [reflexivity|].
  destruct (enableVisualTesting config), (enablePerformanceTesting config),
    (enableAccessibilityTesting config); cbn;
    (split; [lia | repeat constructor; try discriminate; set_solver]).
Qed.

(** X13.  Every bug [detectBugs] returns either names a test case, and then
    that test case is among the given ones and a failed execution names it
    too, or it names none and is one of the three probe bugs.  There are at
    most three bugs more than failed executions. *)
Theorem detectBugs_references host executions testCases config w :
  exists bugs,
    valueIn w (detectBugs host executions testCases config) = Resolved bugs /\
    length bugs <= length (filter (fun e => exec_status e = failed) executions) + 3 /\
    Forall
      (fun bug =>
         match bug_testCaseId bug with
         | Some id =>
             exists execution testCase,
               execution ∈ executions /\ exec_status execution = failed /\
               exec_testCaseId execution = id /\
               testCase ∈ testCases /\ tc_id testCase = id
         | None => bug_id bug ∈ ["visual-bug-1"; "perf-bug-1"; "a11y-bug-1"]
         end)
      bugs.
Proof.
  destruct (detectBugs_probes host executions testCases config w)
    as (probeBugs & -> & Hlen & Hprobes).
  eexists. split; [reflexivity|]. split.
  - rewrite length_app.
    assert (length (fst (detectBugs_loop host
              (filter (fun e => exec_status e = failed) executions) testCases config w))
            <= length (filter (fun e => exec_status e = failed) executions)); [|lia].
    generalize (filter (fun e => exec_status e = failed) executions). intros l. revert w.
    induction l as [|e l IH]; intros w; cbn [detectBugs_loop]; [reflexivity|].
    destruct (List.find _ testCases).
    + rewrite !bind_run. cbn [ret fst length]. specialize (IH (snd
        (createBugFromFailedTest host e t config w))). lia.
    + specialize (IH w). cbn [length]. lia.
  - apply Forall_app. split.
    + apply detectBugs_loop_Forall. intros execution testCase w' Hin Hfind.
      apply list_elem_of_filter in Hin. destruct Hin as [Hfailed Hin].
      apply find_by_id_sound in Hfind. destruct Hfind as [Hid Htc].
      cbn. exists execution, testCase. now rewrite Hid.
    + eapply Forall_impl; [exact Hprobes|]. intros bug (-> & Hid & _). exact Hid.
Qed.

(** X14.  Every bug [detectBugs] returns is open and has no ticket; its
    severity is never trivial, its category never security, and it has
    exactly three reproduction steps. *)
Theorem detectBugs_fresh host executions testCases config w :
  exists bugs,
    valueIn w (detectBugs host executions testCases config) = Resolved bugs /\
    Forall
      (fun bug =>
         bug_status bug = open /\ bug_jiraTicket bug = None /\
         bug_severity bug <> trivial /\ bug_category bug <> security /\
         length (bug_steps bug) = 3)
      bugs.
Proof.
  destruct (detectBugs_probes host executions testCases config w)
    as (probeBugs & -> & _ & Hprobes).
  eexists. split; [reflexivity|]. apply Forall_app. split.
  - apply detectBugs_loop_Forall. intros execution testCase w' _ _.
    rewrite createBugFromFailedTest_severity.
    unfold valueIn, createBugFromFailedTest. rewrite !bind_run. cbn.
    repeat split.
    + unfold determineBugSeverity.
      repeat match goal with |- context [if ?b then _ else _] => destruct b end; discriminate.
    + unfold mapTestCategoryToBugCategory.
      repeat match goal with |- context [if ?b then _ else _] => destruct b end; discriminate.
  - eapply Forall_impl; [exact Hprobes|]. intros bug H. cbn beta in H. tauto.
Qed.

Lemma find_unique (testCases : list TestCase) (testCase : TestCase) :
  NoDup (map tc_id testCases) -> testCase ∈ testCases ->
  List.find (fun tc => String.eqb (tc_id tc) (tc_id testCase)) testCases = Some testCase.
Proof.
  induction testCases as [|tc rest IH]; cbn [map List.find].
  - intros _ H. now apply elem_of_nil in H.
  - rewrite NoDup_cons, elem_of_cons. intros [Hfresh Hrest] [-> | Hin].
    + now rewrite String.eqb_refl.
    + destruct (String.eqb_spec (tc_id tc) (tc_id testCase)) as [Heq | _]; [|now apply IH].
      exfalso. apply Hfresh. rewrite Heq. apply list_elem_of_fmap. now exists testCase.
Qed.

Lemma resolve_own (testCases : list TestCase) :
  NoDup (map tc_id testCases) ->
  forall executions ran,
    map exec_testCaseId executions = map tc_id ran ->
    (forall tc, tc ∈ ran -> tc ∈ testCases) ->
    omap (fun execution =>
            option_map (pair execution)
              (List.find (fun tc => String.eqb (tc_id tc) (exec_testCaseId execution))
                 testCases))
         (filter (fun e => exec_status e = failed) executions) =
    filter (fun p : TestExecution * TestCase => exec_status p.1 = failed) (zip executions ran).
Proof.
  intros Hunique. induction executions as [|e executions IH]; intros [|tc ran] Hids Hran;
    try discriminate; [reflexivity|].
  cbn [map] in Hids. injection Hids as Hid Hids.
  cbn [zip zip_with]. rewrite !filter_cons. cbn [fst].
  assert (Hrest : forall x, x ∈ ran -> x ∈ testCases) by (intros x Hx; apply Hran; now right).
  destruct (decide (exec_status e = failed)); [|now apply IH].
  cbn [omap list_omap]. rewrite Hid, (find_unique testCases tc Hunique) by (apply Hran; left).
  cbn [option_map]. now rewrite <- (IH ran Hids Hrest).
Qed.

(** X15.  When the executions are those of the test cases, one for each and
    in order, and the identifiers of the test cases are pairwise different,
    [detectBugs] classifies every failed execution against the very test
    case that was run: its first bugs are, one for one and in order, the
    bugs [createBugFromFailedTest] makes of the failed executions and their
    own test cases. *)
Theorem detectBugs_resolves_own host executions testCases config w :
  map exec_testCaseId executions = map tc_id testCases ->
  NoDup (map tc_id testCases) ->
  exists failureBugs probeBugs,
    valueIn w (detectBugs host executions testCases config) =
      Resolved (failureBugs ++ probeBugs) /\
    Forall2
      (fun (run : TestExecution * TestCase) bug =>
         exists w', bug = valueIn w' (createBugFromFailedTest host run.1 run.2 config))
      (filter (fun run : TestExecution * TestCase => exec_status run.1 = failed)
         (zip executions testCases))
      failureBugs.
Proof.
  intros Hids Hunique.
  destruct (detectBugs_value host executions testCases config w) as [probeBugs ->].
  eexists _, probeBugs. split; [reflexivity|].
  rewrite <- (resolve_own testCases Hunique executions testCases Hids) by auto.
  apply detectBugs_loop_created.
Qed.

Lemma detectBugs_resolves_own_witness :
  exists failureBugs probeBugs,
    valueIn (worldAt 1000) (detectBugs sampleHost [failedExecution] buttonTests probesOff) =
      Resolved (failureBugs ++ probeBugs) /\
    Forall2
      (fun (run : TestExecution * TestCase) bug =>
         exists w', bug = valueIn w' (createBugFromFailedTest sampleHost run.1 run.2 probesOff))
      (filter (fun run : TestExecution * TestCase => exec_status run.1 = failed)
         (zip [failedExecution] buttonTests))
      failureBugs.
Proof.
  apply (detectBugs_resolves_own sampleHost [failedExecution] buttonTests probesOff
           (worldAt 1000)).
  - reflexivity.
  - vm_compute. repeat constructor. set_solver.
Defined.

(** ** The mock errors *)

(** X16.  Whatever error [generateMockError] produces, [determineBugSeverity]
    classifies it as follows: the 'not found' error, whatever element it
    names, and the timeout error are critical; the assertion error is major
    for a high-priority test and minor otherwise; the two remaining errors
    are minor. *)
Theorem mock_error_severity host testCase w error testPriority :
  valueIn w (generateMockError host testCase) = Some error ->
  (exists elementText, error = "Element not found: " +:+ elementText /\
     determineBugSeverity error testPriority = critical) \/
  (error = "Timeout waiting for element to be visible" /\
     determineBugSeverity error testPriority = critical) \/
  (error = "Assertion failed: Expected " +:+ dq +:+ "Success" +:+ dq +:+
             " but got " +:+ dq +:+ "Error" +:+ dq /\
     determineBugSeverity error testPriority =
       if String.eqb testPriority "high" then major else minor) \/
  ((error = "Network request failed with status 500" \/
    error = "Element is not clickable at this point") /\
     determineBugSeverity error testPriority = minor).
Proof.
  unfold generateMockError, valueIn. rewrite bind_run. cbn [ret fst].
  destruct (arrayIndex _) as [[|[|[|[|[|n]]]]]|]; cbn [lookup list_lookup]; intros H;
    try discriminate H; injection H as <-.
  - left. eexists. split; [reflexivity|]. unfold determineBugSeverity.
    rewrite toLowerCase_append.
    rewrite (includes_append_l _ _ "not found") by reflexivity.
    now rewrite orb_true_r.
  - right. left. split; reflexivity.
  - right. right. left. split; reflexivity.
  - right. right. right. split; [now left | reflexivity].
  - right. right. right. split; [now right | reflexivity].
Qed.

Lemma mock_error_severity_witness :
  (exists elementText, "Element not found: 1" = "Element not found: " +:+ elementText /\
     determineBugSeverity "Element not found: 1" "high" = critical) \/
  ("Element not found: 1" = "Timeout waiting for element to be visible" /\
     determineBugSeverity "Element not found: 1" "high" = critical) \/
  ("Element not found: 1" = "Assertion failed: Expected " +:+ dq +:+ "Success" +:+ dq +:+
                            " but got " +:+ dq +:+ "Error" +:+ dq /\
     determineBugSeverity "Element not found: 1" "high" =
       if String.eqb "high" "high" then major else minor) \/
  (("Element not found: 1" = "Network request failed with status 500" \/
    "Element not found: 1" = "Element is not clickable at this point") /\
     determineBugSeverity "Element not found: 1" "high" = minor).
Proof.
  apply (mock_error_severity sampleHost loginTest zeroDrawWorld "Element not found: 1" "high").
  reflexivity.
Defined.

(** ** Tracker calls *)

(** X17.  [testJiraConnection] never rejects; it answers true exactly when
    base URL, email and API token are non-empty.  A configuration without
    validation errors passes it, but not the other way round: it also
    accepts a configuration whose project key is missing. *)
Theorem testJiraConnection_and_validation host config :
  (testJiraConnection config = Resolved true \/ testJiraConnection config = Resolved false) /\
  (testJiraConnection config = Resolved true <->
   baseUrl config <> EmptyString /\ email config <> EmptyString /\
   apiToken config <> EmptyString) /\
  (validateJiraConfig host (asPartial config) = [] ->
   testJiraConnection config = Resolved true) /\
  (exists other,
     testJiraConnection other = Resolved true /\
     validateJiraConfig host (asPartial other) <> []).
Proof.
  split; [|split; [|split]].
  - unfold testJiraConnection. destruct (_ || _); auto.
  - unfold testJiraConnection.
    destruct (baseUrl config), (email config), (apiToken config); cbn;
      split; try discriminate; try tauto; intros _; repeat split; discriminate.
  - unfold validateJiraConfig, testJiraConnection, asPartial, isValidUrl.
    destruct config as [[|c1 r1] [|c2 r2] [|c3 r3] key type auto];
      cbn [partial_baseUrl partial_email partial_apiToken partial_projectKey
           partial_issueType truthy orElse negb baseUrl email apiToken orb];
      intros Hvalid; try reflexivity; exfalso;
      apply (f_equal length) in Hvalid; revert Hvalid;
      repeat match goal with |- context [if ?b then _ else _] => destruct b end;
      rewrite ?length_app; cbn [length]; lia.
  - exists {| baseUrl := "jira"; email := "qa"; apiToken := "token"; projectKey := "";
              issueType := "Bug"; autoCreateTickets := false |}.
    split; [reflexivity|]. unfold validateJiraConfig, asPartial, isValidUrl.
    cbn [partial_baseUrl partial_email partial_apiToken partial_projectKey
         partial_issueType truthy orElse negb baseUrl email apiToken projectKey issueType].
    intros Hvalid; apply (f_equal length) in Hvalid; revert Hvalid.
    repeat match goal with |- context [if ?b then _ else _] => destruct b end;
      rewrite ?length_app; cbn [length]; lia.
Qed.

(** X18.  [createJiraTicket] rejects exactly for a bug whose creation date
    is the invalid date, with the message of the date error after 'Failed to
    create Jira ticket: ', and then it has read neither the clock nor the
    random number generator.  For every other bug it resolves, whatever the
    configuration, after three random numbers and two readings of the clock,
    which become the ticket's creation and update dates. *)
Theorem createJiraTicket_outcomes host bug config w :
  match bug_createdAt bug with
  | InvalidDate =>
      createJiraTicket host bug config w =
      (Rejected ("Failed to create Jira ticket: " +:+ invalidTimeMessage host), w)
  | TimeValue _ =>
      exists ticket w',
        createJiraTicket host bug config w = (Resolved ticket, w') /\
        clockReads w' = clockReads w + 2 /\
        randomDraws w' = randomDraws w + 3 /\
        ticket_created ticket = TimeValue (clock w (clockReads w)) /\
        ticket_updated ticket = TimeValue (clock w (S (clockReads w)))
  end.
Proof.
  unfold createJiraTicket, formatBugDescriptionForJira, toISOString.
  destruct (bug_createdAt bug) as [ms|]; [|reflexivity].
  rewrite !bind_run. cbn. eexists _, _. split; [reflexivity|].
  cbn. repeat split; lia.
Qed.

Lemma append_cancel (a x y : string) : a +:+ x = a +:+ y -> x = y.
Proof. induction a as [|c a IH]; push_append; [auto | intros [= H]; auto]. Qed.

(** X19.  The ticket [updateJiraTicket] and [getJiraTicket] return carries
    the key that was asked for, and its URL names that key.  The URL of the
    ticket [createJiraTicket] returns is built from a random number of its
    own: it names the ticket's key exactly when the second and the third
    random number of the call give the same issue number. *)
Theorem ticket_url_and_key host config w :
  (forall ticketKey updates,
     exists ticket,
       valueIn w (updateJiraTicket host ticketKey updates config) = Resolved ticket /\
       ticket_key ticket = ticketKey /\
       ticket_url ticket = baseUrl config +:+ "/browse/" +:+ ticket_key ticket) /\
  (forall ticketKey,
     exists ticket,
       valueIn w (getJiraTicket host ticketKey config) = Resolved ticket /\
       ticket_key ticket = ticketKey /\
       ticket_url ticket = baseUrl config +:+ "/browse/" +:+ ticket_key ticket) /\
  (forall bug ms,
     bug_createdAt bug = TimeValue ms ->
     exists ticket,
       valueIn w (createJiraTicket host bug config) = Resolved ticket /\
       (ticket_url ticket = baseUrl config +:+ "/browse/" +:+ ticket_key ticket <->
        numberText host (Math_floor host (random w (S (randomDraws w)) * 1000)%float) =
        numberText host (Math_floor host (random w (S (S (randomDraws w))) * 1000)%float))).
Proof.
  split; [|split].
  - intros ticketKey updates. unfold updateJiraTicket, valueIn. rewrite !bind_run. cbn.
    eexists. repeat split.
  - intros ticketKey. unfold getJiraTicket, valueIn. rewrite !bind_run. cbn.
    eexists. repeat split.
  - intros bug ms Hdate.
    unfold createJiraTicket, formatBugDescriptionForJira, toISOString, valueIn.
    rewrite Hdate. unfold bind, ret, Math_random, new_Date, Date_now.
    cbn [fst snd ticket_url ticket_key random randomDraws clock clockReads].
    eexists. split; [reflexivity|]. cbn. split.
    + intros H. apply append_cancel in H. apply append_cancel in H.
      apply append_cancel in H. apply append_cancel in H. congruence.
    + intros H. now rewrite H.
Qed.

(** ** Bulk creation of tickets *)

Lemma createJiraTicket_dated host bug config w :
  dated bug = true ->
  exists ticket w',
    createJiraTicket host bug config w = (Resolved ticket, w') /\
    ticket_key ticket <> EmptyString.
Proof.
  unfold dated, createJiraTicket, formatBugDescriptionForJira, toISOString.
  destruct (bug_createdAt bug) as [ms|]; [intros _|discriminate].
  rewrite !bind_run. cbn. eexists _, _. split; [reflexivity|].
  cbn. destruct (projectKey config); push_append; discriminate.
Qed.

Lemma createJiraTicket_undated host bug config w :
  dated bug = false ->
  exists message, createJiraTicket host bug config w = (Rejected message, w).
Proof.
  unfold dated, createJiraTicket, formatBugDescriptionForJira, toISOString.
  destruct (bug_createdAt bug) as [ms|]; [discriminate|intros _].
  eexists. reflexivity.
Qed.

Lemma setJiraTicket_twice key key' bug :
  setJiraTicket key' (setJiraTicket key bug) = setJiraTicket key' bug.
Proof. reflexivity. Qed.

Lemma handleCreateTicket_step host config ref state w :
  match store state !! ref with
  | Some bug =>
      if dated bug
      then exists ticket w',
             ticket_key ticket <> EmptyString /\
             handleCreateTicket host config ref state w =
             ({| store := <[ref := setJiraTicket (ticket_key ticket) bug]> (store state);
                 tickets := tickets state ++ [ticket] |}, w')
      else handleCreateTicket host config ref state w = (state, w)
  | None => handleCreateTicket host config ref state w = (state, w)
  end.
Proof.
  unfold handleCreateTicket. destruct (store state !! ref) as [bug|]; [|reflexivity].
  destruct (dated bug) eqn:Hdated.
  - destruct (createJiraTicket_dated host bug config w Hdated) as (ticket & w' & Hrun & Hkey).
    exists ticket, w'. split; [exact Hkey|]. rewrite bind_run, Hrun. reflexivity.
  - destruct (createJiraTicket_undated host bug config w Hdated) as (message & Hrun).
    rewrite bind_run, Hrun. reflexivity.
Qed.

Lemma handleBulkCreateTickets_loop_spec host config refs : forall state w,
  let state' := (handleBulkCreateTickets_loop host config refs state w).1 in
  (forall ref, store state !! ref = None -> store state' !! ref = None) /\
  (forall ref bug, store state !! ref = Some bug ->
     ~ In ref refs \/ dated bug = false -> store state' !! ref = Some bug) /\
  (forall ref bug, store state !! ref = Some bug -> In ref refs -> dated bug = true ->
     exists key, key <> EmptyString /\ store state' !! ref = Some (setJiraTicket key bug)) /\
  length (tickets state') =
  length (tickets state) +
  length (List.filter
            (fun ref => match store state !! ref with
                        | Some bug => dated bug
                        | None => false
                        end) refs).
Proof.
  induction refs as [|r rest IH]; intros state w; cbn zeta.
  - cbn. repeat split; auto; try lia; intros ref bug _ [].
  - cbn [handleBulkCreateTickets_loop]. rewrite bind_run.
    pose proof (handleCreateTicket_step host config r state w) as Hstep.
    destruct (store state !! r) as [b|] eqn:Hr; [destruct (dated b) eqn:Hb|].
    + destruct Hstep as (ticket & w' & Hkey & Hrun). rewrite Hrun. cbn [fst snd].
      set (state1 := {| store := _; tickets := _ |}).
      destruct (IH state1 w') as (Hnone & Hsame & Hset & Hcount).
      assert (Hother : forall ref, ref <> r -> store state1 !! ref = store state !! ref).
      { intros ref Hne. unfold state1. cbn [store]. now rewrite lookup_insert_ne. }
      assert (Hown : store state1 !! r = Some (setJiraTicket (ticket_key ticket) b)).
      { unfold state1. cbn [store]. now rewrite lookup_insert_eq. }
      repeat split.
      * intros ref Href. apply Hnone. rewrite Hother; [exact Href|]. congruence.
      * intros ref bug Href Hcase.
        assert (Hne : ref <> r).
        { destruct Hcase as [Hout|Hundated]; [intros ->; apply Hout; now left|congruence]. }
        apply Hsame; [now rewrite Hother|].
        destruct Hcase as [Hout|Hundated]; [left; intros Hin; apply Hout; now right|now right].
      * intros ref bug Href Hin Hdated.
        destruct (decide (ref = r)) as [->|Hne].
        -- assert (bug = b) as -> by congruence.
           destruct (in_dec Nat.eq_dec r rest) as [Hagain|Hout].
           ++ destruct (Hset r _ Hown Hagain Hb) as (key & Hkey' & Hfinal).
              exists key. split; [exact Hkey'|]. now rewrite Hfinal, setJiraTicket_twice.
           ++ exists (ticket_key ticket). split; [exact Hkey|]. apply Hsame; [exact Hown|now left].
        -- destruct Hin as [Heq|Hin]; [congruence|]. apply Hset; [now rewrite Hother|exact Hin|exact Hdated].
      * rewrite Hcount. unfold state1 at 1. cbn [tickets List.filter]. rewrite Hr, Hb.
        rewrite length_app. cbn [length].
        rewrite (List.filter_ext
                   (fun ref => match store state1 !! ref with Some bug => dated bug | None => false end)
                   (fun ref => match store state !! ref with Some bug => dated bug | None => false end)).
        -- lia.
        -- intros ref. destruct (decide (ref = r)) as [->|Hne].
           ++ rewrite Hown, Hr. reflexivity.
           ++ now rewrite Hother.
    + rewrite Hstep. cbn [fst snd]. destruct (IH state w) as (Hnone & Hsame & Hset & Hcount).
      repeat split.
      * exact Hnone.
      * intros ref bug Href Hcase. apply Hsame; [exact Href|].
        destruct Hcase as [Hout|Hundated]; [left; intros Hin; apply Hout; now right|now right].
      * intros ref bug Href [Heq|Hin] Hdated; [congruence|]. now apply Hset.
      * rewrite Hcount. cbn [List.filter]. now rewrite Hr, Hb.
    + rewrite Hstep. cbn [fst snd]. destruct (IH state w) as (Hnone & Hsame & Hset & Hcount).
      repeat split.
      * exact Hnone.
      * intros ref bug Href Hcase. apply Hsame; [exact Href|].
        destruct Hcase as [Hout|Hundated]; [left; intros Hin; apply Hout; now right|now right].
      * intros ref bug Href [Heq|Hin] Hdated; [congruence|]. now apply Hset.
      * rewrite Hcount. cbn [List.filter]. now rewrite Hr.
Qed.

Lemma handleBulkCreateTickets_loop_noop host config refs state w :
  (forall ref bug, In ref refs -> store state !! ref = Some bug -> dated bug = false) ->
  handleBulkCreateTickets_loop host config refs state w = (state, w).
Proof.
  induction refs as [|r rest IH]; intros Hundated; [reflexivity|].
  cbn [handleBulkCreateTickets_loop]. rewrite bind_run.
  pose proof (handleCreateTicket_step host config r state w) as Hstep.
  destruct (store state !! r) as [b|] eqn:Hr.
  - rewrite (Hundated r b (or_introl eq_refl) Hr) in Hstep. rewrite Hstep. cbn [fst snd].
    apply IH. intros ref bug Hin. apply Hundated. now right.
  - rewrite Hstep. cbn [fst snd]. apply IH. intros ref bug Hin. apply Hundated. now right.
Qed.

Lemma filter_filter {A} (f g : A -> bool) (l : list A) :
  List.filter f (List.filter g l) = List.filter (fun x => g x && f x) l.
Proof.
  induction l as [|x l IH]; [reflexivity|]. cbn [List.filter].
  destruct (g x); cbn [List.filter andb]; [destruct (f x)|]; now rewrite IH.
Qed.

(** X20.  After [handleBulkCreateTickets] every bug of the list that has a
    valid creation date carries a ticket reference.  A bug that is not in the
    list, that had a ticket reference already or whose creation date is
    invalid is left as it was, and the panel gains one ticket for each entry
    of the list that had no reference and has a valid date, an object listed
    twice giving two tickets. *)
Theorem handleBulkCreateTickets_covers host config bugs state w :
  let state' := valueIn w (handleBulkCreateTickets host config bugs state) in
  (forall ref bug, store state !! ref = Some bug -> In ref bugs -> dated bug = true ->
     exists bug', store state' !! ref = Some bug' /\ hasTicket bug' = true) /\
  (forall ref bug, store state !! ref = Some bug ->
     ~ In ref bugs \/ hasTicket bug = true \/ dated bug = false ->
     store state' !! ref = Some bug) /\
  length (tickets state') =
  length (tickets state) + length (List.filter (needsTicket state) bugs).
Proof.
  cbn zeta. unfold valueIn, handleBulkCreateTickets.
  set (refs := List.filter _ bugs).
  destruct (handleBulkCreateTickets_loop_spec host config refs state w)
    as (Hnone & Hsame & Hset & Hcount).
  assert (Hrefs : forall ref bug, store state !! ref = Some bug ->
                    (In ref refs <-> In ref bugs /\ hasTicket bug = false)).
  { intros ref bug Href. unfold refs. rewrite filter_In, Href. unfold hasTicket.
    destruct (truthy (bug_jiraTicket bug)); cbn; intuition congruence. }
  repeat split.
  - intros ref bug Href Hin Hdated. destruct (hasTicket bug) eqn:Hticket.
    + exists bug. split; [|exact Hticket]. apply Hsame; [exact Href|]. left.
      rewrite (Hrefs ref bug Href). intros [_ Hno]. congruence.
    + destruct (Hset ref bug Href) as (key & Hkey & Hfinal);
        [now apply (Hrefs ref bug Href)|exact Hdated|].
      exists (setJiraTicket key bug). split; [exact Hfinal|].
      unfold hasTicket. cbn. destruct key; [congruence|reflexivity].
  - intros ref bug Href Hcase. apply Hsame; [exact Href|].
    destruct Hcase as [Hout|[Hticket|Hundated]].
    + left. rewrite (Hrefs ref bug Href). tauto.
    + left. rewrite (Hrefs ref bug Href). intros [_ Hno]. congruence.
    + now right.
  - rewrite Hcount. f_equal. unfold refs. rewrite filter_filter. f_equal.
    apply List.filter_ext. intros ref. unfold needsTicket, hasTicket.
    destruct (store state !! ref); reflexivity.
Qed.

(** X21.  [handleBulkCreateTickets] is idempotent: run again on the state it
    left, from any world, it creates no ticket, changes no bug and reads
    neither the clock nor the random number generator. *)
Theorem handleBulkCreateTickets_again host config bugs state w w2 :
  let state' := valueIn w (handleBulkCreateTickets host config bugs state) in
  handleBulkCreateTickets host config bugs state' w2 = (state', w2).
Proof.
  cbn zeta. set (state' := valueIn w _).
  unfold handleBulkCreateTickets at 1. apply handleBulkCreateTickets_loop_noop.
  intros ref bug' Hin Href'. apply filter_In in Hin as [Hin Hno]. rewrite Href' in Hno.
  revert Href'. unfold state', valueIn, handleBulkCreateTickets.
  set (refs := List.filter _ bugs).
  destruct (handleBulkCreateTickets_loop_spec host config refs state w)
    as (Hnone & Hsame & Hset & _).
  intros Href'. destruct (store state !! ref) as [bug|] eqn:Href.
  - destruct (dated bug) eqn:Hdated.
    + destruct (truthy (bug_jiraTicket bug)) eqn:Hticket.
      * rewrite (Hsame ref bug Href) in Href'.
        -- injection Href' as <-. now rewrite Hticket in Hno.
        -- left. unfold refs. rewrite filter_In, Href, Hticket. intros [_ ?]. discriminate.
      * destruct (Hset ref bug Href) as (key & Hkey & Hfinal); [|exact Hdated|].
        -- unfold refs. rewrite filter_In, Href, Hticket. now split.
        -- rewrite Hfinal in Href'. injection Href' as <-. cbn in Hno.
           destruct key; [congruence|discriminate].
    + rewrite (Hsame ref bug Href) in Href'; [|now right]. congruence.
  - rewrite (Hnone ref Href) in Href'. discriminate.
Qed.

(** ** The description of a ticket *)

Lemma trimEnd_append (a : string) (c : ascii) (b : string) :
  isWhiteSpace c = false -> trimEnd (a +:+ String c b) = a +:+ String c (trimEnd b).
Proof.
  intros Hc. induction a as [|x a IH]; push_append.
  - cbn [trimEnd]. rewrite Hc. now destruct (trimEnd b).
  - cbn [trimEnd]. rewrite IH. now destruct a.
Qed.

(** X22.  The description [formatBugDescriptionForJira] writes for a bug
    with a valid creation date starts with the heading '*Bug Description:*'
    and, on the next line, the bug's own description, and it holds every
    reproduction step of the bug behind its number, counted from 1.  For a
    bug whose creation date is the invalid date the function throws the
    error of the date. *)
Theorem ticket_description_steps host bug :
  match bug_createdAt bug with
  | TimeValue _ =>
      exists description,
        formatBugDescriptionForJira host bug = Normal description /\
        startsWith description
          ("*Bug Description:*" +:+ nl +:+ bug_description bug +:+ nl) = true /\
        forall index step,
          bug_steps bug !! index = Some step ->
          includes description (decimal (index + 1) +:+ ". " +:+ step) = true
  | InvalidDate =>
      formatBugDescriptionForJira host bug = Thrown (invalidTimeMessage host)
  end.
Proof.
  unfold formatBugDescriptionForJira, toISOString.
  destruct (bug_createdAt bug) as [ms|]; [|reflexivity].
  eexists. split; [reflexivity|].
  set (steps := join nl (imap _ (bug_steps bug))).
  unfold trim, unlines. cbn [String.concat]. rewrite append_nil.
  change (trimStart (nl +:+ ?s)) with (trimStart s).
  match goal with
  | |- context [trimStart (?heading +:+ nl +:+ ?d +:+ nl +:+ ?e +:+ nl +:+ ?h2 +:+ nl +:+
                           steps +:+ nl +:+ ?e2 +:+ nl +:+ ?h3 +:+ ?rest)] =>
      replace (trimStart (heading +:+ nl +:+ d +:+ nl +:+ e +:+ nl +:+ h2 +:+ nl +:+
                          steps +:+ nl +:+ e2 +:+ nl +:+ h3 +:+ rest))
        with ((heading +:+ nl +:+ d +:+ nl +:+ nl +:+ h2 +:+ nl +:+ steps +:+ nl +:+ nl) +:+
              String "*" ("Expected Result:*" +:+ rest))
        by (rewrite !append_assoc; reflexivity)
  end.
  rewrite trimEnd_append by reflexivity. rewrite !append_assoc. split.
  - apply startsWith_spec. eexists. rewrite !append_assoc. reflexivity.
  - intros index step Hstep.
    apply includes_append_r, includes_append_r, includes_append_r, includes_append_r,
      includes_append_r, includes_append_r, includes_append_r, includes_append_l.
    unfold steps. apply (unlines_line _ index).
    rewrite list_lookup_imap, Hstep. reflexivity.
Qed.

(** ** The dashboard charts and the log panel *)

Lemma severity_partition (bugs : list Bug) :
  length bugs =
  criticalBugs bugs + majorBugs bugs + minorBugs bugs +
  length (filter (fun bug => bug_severity bug = trivial) bugs).
Proof.
  unfold criticalBugs, majorBugs, minorBugs.
  induction bugs as [|bug rest IH]; [reflexivity|].
  rewrite !filter_cons. cbn [length]. rewrite IH.
  destruct (bug_severity bug); repeat case_decide; try congruence; cbn [length]; lia.
Qed.

Lemma category_partition (bugs : list Bug) :
  length bugs =
  length (filter (fun bug => bug_category bug = BugDetector.functional) bugs) +
  length (filter (fun bug => bug_category bug = BugDetector.ui) bugs) +
  length (filter (fun bug => bug_category bug = performance) bugs) +
  length (filter (fun bug => bug_category bug = security) bugs) +
  length (filter (fun bug => bug_category bug = usability) bugs).
Proof.
  induction bugs as [|bug rest IH]; [reflexivity|].
  rewrite !filter_cons. cbn [length]. rewrite IH at 1.
  destruct (bug_category bug); repeat case_decide; try congruence; cbn [length]; lia.
Qed.

Lemma sum_of_positive {A} (value : A -> nat) (items : list A) :
  sum_list (map value (List.filter (fun item => 0 <? value item) items)) =
  sum_list (map value items).
Proof.
  induction items as [|item rest IH]; [reflexivity|]. cbn [List.filter].
  destruct (Nat.ltb_spec 0 (value item)); cbn [map sum_list]; rewrite IH; unfold id; lia.
Qed.

Lemma filtered_positive {A} (value : A -> nat) (items : list A) :
  Forall (fun item => 0 < value item) (List.filter (fun item => 0 <? value item) items).
Proof.
  apply Forall_forall. intros item Hin. apply list_elem_of_In, filter_In in Hin.
  destruct Hin as [_ Hpositive]. now apply Nat.ltb_lt.
Qed.

(** X23.  The two charts of the dashboard account for every bug: the values
    of the severity slices add up to the number of bugs, and so do the counts
    of the category bars.  No slice and no bar is empty, and a chart has no
    entry at all exactly when there is no bug. *)
Theorem chart_data_covers (bugs : list Bug) :
  sum_list (map slice_value (severityData bugs)) = length bugs /\
  sum_list (map bar_count (categoryData bugs)) = length bugs /\
  Forall (fun item => 0 < slice_value item) (severityData bugs) /\
  Forall (fun item => 0 < bar_count item) (categoryData bugs) /\
  (severityData bugs = [] <-> bugs = []) /\
  (categoryData bugs = [] <-> bugs = []).
Proof.
  assert (Hseverity : sum_list (map slice_value (severityData bugs)) = length bugs).
  { unfold severityData. rewrite sum_of_positive. cbn [map sum_list slice_value].
    unfold id. pose proof (severity_partition bugs) as Hparts. lia. }
  assert (Hcategory : sum_list (map bar_count (categoryData bugs)) = length bugs).
  { unfold categoryData. rewrite sum_of_positive. cbn [map sum_list bar_count].
    unfold id. pose proof (category_partition bugs) as Hparts. lia. }
  split; [exact Hseverity|]. split; [exact Hcategory|].
  split; [apply filtered_positive|]. split; [apply filtered_positive|]. split.
  - split; [intros Hempty|intros ->; reflexivity].
    rewrite Hempty in Hseverity. now apply nil_length_inv.
  - split; [intros Hempty|intros ->; reflexivity].
    rewrite Hempty in Hcategory. now apply nil_length_inv.
Qed.

Lemma status_partition (executions : list TestExecution) :
  length executions =
  length (filter (fun e => exec_status e = passed) executions) +
  length (filter (fun e => exec_status e = failed) executions) +
  length (filter (fun e => exec_status e = skipped) executions).
Proof.
  induction executions as [|e rest IH]; [reflexivity|].
  rewrite !filter_cons. cbn [length]. rewrite IH at 1.
  destruct (exec_status e); repeat case_decide; try congruence; cbn [length]; lia.
Qed.

(** X24.  The counters of [getExecutionStats] add up: passed, failed and
    skipped executions together are all executions.  For the executions
    [executeTests] returns, the total is the number of test cases and nothing
    is counted as skipped. *)
Theorem getExecutionStats_adds_up host testCases w :
  (forall executions,
     stats_total (getExecutionStats executions) =
     stats_passed (getExecutionStats executions) +
     stats_failed (getExecutionStats executions) +
     stats_skipped (getExecutionStats executions)) /\
  exists executions,
    valueIn w (executeTests host testCases) = Resolved executions /\
    stats_total (getExecutionStats executions) = length testCases /\
    stats_skipped (getExecutionStats executions) = 0.
Proof.
  split; [intros executions; apply status_partition|].
  unfold executeTests, valueIn. rewrite bind_run. cbn [ret fst].
  eexists. split; [reflexivity|].
  destruct (executeTests_loop_shape host testCases w) as [Hids Hall].
  cbn [getExecutionStats stats_total stats_skipped]. split.
  - rewrite <- (length_map exec_testCaseId), Hids. apply length_map.
  - clear Hids. induction Hall as [|e rest He _ IH]; [reflexivity|].
    rewrite filter_cons. case_decide as Hskipped; [|exact IH].
    destruct He as [[Hstatus _]|[Hstatus _]]; congruence.
Qed.

Lemma filter_all {A} (f : A -> bool) (items : list A) :
  (forall item, f item = true) -> List.filter f items = items.
Proof.
  intros Hall. induction items as [|item rest IH]; [reflexivity|].
  cbn [List.filter]. now rewrite Hall, IH.
Qed.

Lemma filter_length_decide {A} (P : A -> Prop) `{!forall x, Decision (P x)}
    (f : A -> bool) (items : list A) :
  (forall item, f item = true <-> P item) ->
  length (List.filter f items) = length (filter P items).
Proof.
  intros Hagree. induction items as [|item rest IH]; [reflexivity|].
  cbn [List.filter]. rewrite filter_cons. specialize (Hagree item).
  destruct (f item); case_decide; cbn [length]; try (now rewrite IH).
  - exfalso. tauto.
  - exfalso. assert (false = true) by tauto. discriminate.
Qed.

(** X25.  The filter of the log panel: with both selections on 'all' it
    shows every bug; filtering by severity and then by status is filtering
    by both at once; and it agrees with the dashboard, the list under the
    severity 'critical' being as long as the dashboard's count of critical
    bugs and the list under the status 'open' as long as its count of open
    bugs. *)
Theorem filteredBugs_composes (bugs : list Bug) :
  filteredBugs bugs "all" "all" = bugs /\
  (forall filterSeverity filterStatus,
     filteredBugs (filteredBugs bugs filterSeverity "all") "all" filterStatus =
     filteredBugs bugs filterSeverity filterStatus) /\
  length (filteredBugs bugs "critical" "all") = criticalBugs bugs /\
  length (filteredBugs bugs "all" "open") = openBugs bugs.
Proof.
  split; [|split; [|split]].
  - unfold filteredBugs. now apply filter_all.
  - intros filterSeverity filterStatus. unfold filteredBugs. rewrite filter_filter.
    apply List.filter_ext. intros bug. cbn [String.eqb Ascii.eqb Bool.eqb negb andb].
    destruct (negb (String.eqb filterSeverity "all") && _); reflexivity.
  - unfold filteredBugs, criticalBugs. apply filter_length_decide. intros bug.
    destruct (bug_severity bug); cbn; split; congruence.
  - unfold filteredBugs, openBugs. apply filter_length_decide. intros bug.
    destruct (bug_status bug); cbn; split; congruence.
Qed.

(** X26.  The priority badge of a ticket [createJiraTicket] made for a bug
    never takes the fallback colour, and it is the colour of the bug's
    severity badge without the border, except for a trivial bug, whose
    severity badge is gray and whose ticket badge is green. *)
Theorem ticket_badge_colour host bug config w :
  dated bug = true ->
  exists ticket,
    valueIn w (createJiraTicket host bug config) = Resolved ticket /\
    getJiraPriorityColor (ticket_priority ticket) <> "bg-gray-100 text-gray-800" /\
    startsWith (getBugSeverityColor (bug_severity bug))
      (getJiraPriorityColor (ticket_priority ticket)) =
    negb (bool_decide (bug_severity bug = trivial)).
Proof.
  unfold dated, valueIn, createJiraTicket, formatBugDescriptionForJira, toISOString.
  destruct (bug_createdAt bug) as [ms|]; [intros _|discriminate].
  rewrite !bind_run. cbn [ret fst]. eexists. split; [reflexivity|].
  cbn [ticket_priority request_priority].
  destruct (bug_severity bug); split; try discriminate; reflexivity.
Qed.

Lemma ticket_badge_colour_witness :
  exists ticket,
    valueIn (worldAt 1000) (createJiraTicket sampleHost performanceBug initialJiraConfig) =
      Resolved ticket /\
    getJiraPriorityColor (ticket_priority ticket) <> "bg-gray-100 text-gray-800" /\
    startsWith (getBugSeverityColor (bug_severity performanceBug))
      (getJiraPriorityColor (ticket_priority ticket)) =
    negb (bool_decide (bug_severity performanceBug = trivial)).
Proof.
  apply (ticket_badge_colour sampleHost performanceBug initialJiraConfig (worldAt 1000)).
  reflexivity.
Defined.
